(** * RFCameraTests: the simulated camera of Resources/camera.py

    A shallow embedding of [Frame], [RingBuffer], [CameraDataThread] and
    [Camera], and the properties of the frame acquisition subsystem.

    Conventions of the embedding.
    - Python [int] is [Z]; Python [float] is the binary64 type [float] of
      the primitive floats, so literals and divisions round as in CPython.
    - A method of a mutable object is a function from the state of the
      object to an outcome and the state afterwards.  The outcome is a
      returned value or a raised exception; what was assigned before the
      exception was raised stays assigned.
    - [RingBuffer.push], [pop] and [sync] hold the buffer's lock from their
      first to their last statement, so each of them is one atomic
      transition of the buffer.
    - The random draws of [__generageFrameNumber] and the readings of
      [time.time()] in [__generateFrame] and [Camera.get_frame] are
      arguments of the models, and so are the frames the producer pushes
      while [get_frame] polls.  The loop of [CameraDataThread.run] is left
      out, and so is [Camera.features], whose list is in the order of
      insertion, which the map of the features does not keep. *)

From Stdlib Require Import ZArith Lia Floats.
From stdpp Require Import base option list gmap strings.

Local Open Scope Z_scope.
Set Warnings "-inexact-float".

(** ** Exceptions and the state-and-exception monad *)

Inductive exn : Type :=
  | IndexError
  | ZeroDivisionError
  | AttributeError
  | TypeError
  | ValueError
  | OverflowError
  | RuntimeError
  | KeyError.

Inductive result (A : Type) : Type :=
  | Ok (a : A)
  | Raise (e : exn).
Arguments Ok {A} a.
Arguments Raise {A} e.

(** A computation over a mutable object of type [S]. *)
Definition M (S A : Type) : Type := S -> result A * S.

Definition ret {S A} (a : A) : M S A := fun s => (Ok a, s).

Definition bind {S A B} (m : M S A) (k : A -> M S B) : M S B :=
  fun s =>
    match m s with
    | (Ok a, s') => k a s'
    | (Raise e, s') => (Raise e, s')
    end.

Definition raise {S A} (e : exn) : M S A := fun s => (Raise e, s).

Definition get_state {S} : M S S := fun s => (Ok s, s).

Definition modify {S} (f : S -> S) : M S unit := fun s => (Ok tt, f s).

(** A pure step that may raise. *)
Definition lift {S A} (r : result A) : M S A := fun s => (r, s).

(** [try: body except: handler], with a bare [except]. *)
Definition try_except {S A} (body : M S A) (handler : M S A) : M S A :=
  fun s =>
    match body s with
    | (Ok a, s') => (Ok a, s')
    | (Raise _, s') => handler s'
    end.

(** A computation keeps a property of the object, whatever its outcome. *)
Definition preserves {S A} (P : S -> Prop) (m : M S A) : Prop :=
  forall s : S, P s -> P (snd (m s)).

(** A computation raises whenever the object has a property. *)
Definition raises_under {S A} (P : S -> Prop) (m : M S A) : Prop :=
  forall s : S, P s -> exists e : exn, fst (m s) = Raise e.

(** The monad is used through stdpp's [x ← m; k] and [m;; k]. *)
#[global] Instance M_ret {S} : MRet (M S) := fun A a => ret a.
#[global] Instance M_bind {S} : MBind (M S) := fun A B k m => bind m k.

(** ** Python lists and integer arithmetic *)

(** The position a Python list subscript [l[i]] denotes: negative
    subscripts count from the end, anything else is out of range. *)
Definition py_index {A} (l : list A) (i : Z) : option nat :=
  let n := Z.of_nat (length l) in
  if (0 <=? i) && (i <? n) then Some (Z.to_nat i)
  else if (- n <=? i) && (i <? 0) then Some (Z.to_nat (n + i))
  else None.

(** [l[i]] *)
Definition list_getitem {A} (l : list A) (i : Z) : result A :=
  match py_index l i with
  | Some k => match l !! k with Some x => Ok x | None => Raise IndexError end
  | None => Raise IndexError
  end.

(** [l[i] = x] *)
Definition list_setitem {A} (l : list A) (i : Z) (x : A) : result (list A) :=
  match py_index l i with
  | Some k => Ok (<[k := x]> l)
  | None => Raise IndexError
  end.

(** [a % b] on Python integers: the sign follows the divisor, as [Z.modulo]
    does, and a zero divisor raises. *)
Definition py_mod (a b : Z) : result Z :=
  if b =? 0 then Raise ZeroDivisionError else Ok (a mod b).

(** ** Integers of the frame counter

    [CameraDataThread.__frame_number] starts as the Python integer [1]; the
    draws of [numpy.random.Generator.integers] are [numpy.int64], and a sum
    with a [numpy.int64] operand is a [numpy.int64], which wraps around. *)

Inductive pyint : Type :=
  | PyInt (z : Z)
  | NpInt64 (z : Z).

Definition int_value (i : pyint) : Z :=
  match i with PyInt z | NpInt64 z => z end.

Definition wrap64 (z : Z) : Z := (z + 2 ^ 63) mod 2 ^ 64 - 2 ^ 63.

(** [a + b]; a Python integer added to a [numpy.int64] is taken to fit
    [numpy.int64] itself. *)
Definition int_add (a b : pyint) : pyint :=
  match a, b with
  | PyInt x, PyInt y => PyInt (x + y)
  | _, _ => NpInt64 (wrap64 (int_value a + int_value b))
  end.

(** ** Frame *)

Record Frame : Type := mkFrame {
  data : list (list Z);
  frame_number : pyint;
  timestamp : float
}.

(** A frame without pixels, to tell frames apart by their number. *)
Definition sample_frame (k : Z) : Frame := mkFrame [] (PyInt k) 0%float.

(** ** RingBuffer *)

Module RingBuffer.

Record t : Type := mk {
  __size : Z;
  __frames : list (option Frame);
  __write_index : Z;
  __read_index : Z;
  __write_count : Z;
  __read_count : Z
}.

Definition set_frames (fs : list (option Frame)) (r : t) : t :=
  mk (__size r) fs (__write_index r) (__read_index r)
     (__write_count r) (__read_count r).
Definition set_write_index (i : Z) (r : t) : t :=
  mk (__size r) (__frames r) i (__read_index r)
     (__write_count r) (__read_count r).
Definition set_read_index (i : Z) (r : t) : t :=
  mk (__size r) (__frames r) (__write_index r) i
     (__write_count r) (__read_count r).
Definition set_write_count (n : Z) (r : t) : t :=
  mk (__size r) (__frames r) (__write_index r) (__read_index r)
     n (__read_count r).
Definition set_read_count (n : Z) (r : t) : t :=
  mk (__size r) (__frames r) (__write_index r) (__read_index r)
     (__write_count r) n.

(** [RingBuffer(size)]: [range(0, size)] is empty for [size <= 0]. *)
Definition init (size : Z) : t :=
  mk size (replicate (Z.to_nat size) None) 0 0 0 0.

(** [push(frame)], statement by statement. *)
Definition push (frame : Frame) : M t unit :=
  (r ← get_state;
   fs ← lift (list_setitem (__frames r) (__write_index r) (Some frame));
   modify (set_frames fs));;
  (r ← get_state;
   wi ← lift (py_mod (__write_index r + 1) (__size r));
   modify (set_write_index wi));;
  (r ← get_state;
   modify (set_write_count (__write_count r + 1))).

(** [pop()].  Python's [None] is the [None] of [option Frame]: it is what
    [pop] returns when it finds nothing to read, and also the content of a
    slot that was never written. *)
Definition pop : M t (option Frame) :=
  r ← get_state;
  if (__write_count r <? __read_count r) || (__read_index r =? __write_index r)
  then ret None
  else
    frame ← lift (list_getitem (__frames r) (__read_index r));
    (r ← get_state;
     ri ← lift (py_mod (__read_index r + 1) (__size r));
     modify (set_read_index ri));;
    (r ← get_state;
     modify (set_read_count (__read_count r + 1)));;
    ret frame.

(** [sync()] *)
Definition sync : M t unit :=
  (r ← get_state; modify (set_read_index (__write_index r)));;
  modify (set_read_count 0);;
  modify (set_write_count 0).

(** [push] called on each frame of a list in turn. *)
Fixpoint push_all (fs : list Frame) : M t unit :=
  match fs with
  | [] => ret tt
  | f :: fs' => push f;; push_all fs'
  end.

(** [n] calls of [pop], with their results in order. *)
Fixpoint pop_n (n : nat) : M t (list (option Frame)) :=
  match n with
  | O => ret []
  | S n' => x ← pop; xs ← pop_n n'; ret (x :: xs)
  end.

(** One completed operation of the buffer.  An operation that raises
    keeps the lock, and no operation completes after it. *)
Inductive step (r r' : t) : Prop :=
  | step_push (f : Frame) : push f r = (Ok tt, r') -> step r r'
  | step_pop (o : option Frame) : pop r = (Ok o, r') -> step r r'
  | step_sync : sync r = (Ok tt, r') -> step r r'.

(** The states a buffer created with [RingBuffer(sz)] can be in. *)
Inductive reachable (sz : Z) : t -> Prop :=
  | reachable_init : reachable sz (init sz)
  | reachable_step (r r' : t) : reachable sz r -> step r r' -> reachable sz r'.

(** What [pop] tests first: whether it returns [None] without reading. *)
Definition pop_guard (r : t) : bool :=
  (__write_count r <? __read_count r) || (__read_index r =? __write_index r).

(** A buffer with at least one slot, as many slots as its size says, and
    both indices on a slot. *)
Definition well_formed (r : t) : Prop :=
  0 < __size r /\
  length (__frames r) = Z.to_nat (__size r) /\
  0 <= __write_index r < __size r /\
  0 <= __read_index r < __size r.

(** The invariant of a buffer created with [RingBuffer(sz)]: the indices
    stay on the slots (or at zero when there is none), the reader has not
    counted more than the writer, and the distance of the indices is the
    distance of the counters up to whole turns of the ring. *)
Definition invariant (sz : Z) (r : t) : Prop :=
  __size r = sz /\
  length (__frames r) = Z.to_nat sz /\
  0 <= __write_index r < Z.max 1 sz /\
  0 <= __read_index r < Z.max 1 sz /\
  __read_count r <= __write_count r /\
  exists k : Z,
    __write_index r - __read_index r - (__write_count r - __read_count r)
    = k * sz.

(** The number of slots from the read index up to the write index, going
    round the ring. *)
Definition readable (r : t) : Z :=
  (__write_index r - __read_index r) mod __size r.

(** The slots from the read index up to the write index. *)
Definition in_window (r : t) (i : Z) : Prop :=
  (__read_index r <= __write_index r
   /\ __read_index r <= i < __write_index r)
  \/ (__write_index r < __read_index r
      /\ (__read_index r <= i < __size r \/ 0 <= i < __write_index r)).

(** Every slot from the read index up to the write index holds a frame. *)
Definition window_written (r : t) : Prop :=
  forall i : Z, in_window r i ->
    exists f : Frame, __frames r !! Z.to_nat i = Some (Some f).

End RingBuffer.

(** ** Python values of the feature interface

    The values a caller passes to [Camera.set] and reads with [Camera.get]:
    [None], booleans, integers, floats and strings.  Of these,
    [numbers.Number] has the booleans, the integers and the floats. *)

Inductive pyval : Type :=
  | VNone
  | VBool (b : bool)
  | VInt (z : Z)
  | VFloat (f : float)
  | VStr (s : string).

(** [isinstance(v, numbers.Number)] *)
Definition is_number (v : pyval) : bool :=
  match v with
  | VBool _ | VInt _ | VFloat _ => true
  | VNone | VStr _ => false
  end.

(** The exact value of a real number: not a number, an infinity, or
    [m * 2 ^ e]. *)
Inductive xreal : Type :=
  | XNaN
  | XInf (negative : bool)
  | XFin (m e : Z).

Definition float_xreal (f : float) : xreal :=
  match Prim2SF f with
  | S754_zero _ => XFin 0 0
  | S754_infinity s => XInf s
  | S754_nan => XNaN
  | S754_finite s m e => XFin (if s then Z.neg m else Z.pos m) e
  end.

Definition real_value (v : pyval) : option xreal :=
  match v with
  | VBool b => Some (XFin (Z.b2z b) 0)
  | VInt z => Some (XFin z 0)
  | VFloat f => Some (float_xreal f)
  | VNone | VStr _ => None
  end.

Definition xreal_ltb (a b : xreal) : bool :=
  match a, b with
  | XNaN, _ | _, XNaN => false
  | XInf sa, XInf sb => sa && negb sb
  | XInf sa, XFin _ _ => sa
  | XFin _ _, XInf sb => negb sb
  | XFin m1 e1, XFin m2 e2 =>
      let e := Z.min e1 e2 in
      m1 * 2 ^ (e1 - e) <? m2 * 2 ^ (e2 - e)
  end.

(** [a < b].  CPython compares an integer with a float by their exact
    values; a number is not ordered against [None] or a string. *)
Definition py_lt (a b : pyval) : result bool :=
  match a, b with
  | VStr s1, VStr s2 => Ok (String.ltb s1 s2)
  | _, _ =>
      match real_value a, real_value b with
      | Some x, Some y => Ok (xreal_ltb x y)
      | _, _ => Raise TypeError
      end
  end.

(** [a > b] *)
Definition py_gt (a b : pyval) : result bool := py_lt b a.

Definition xreal_leb (a b : xreal) : bool :=
  match a, b with
  | XNaN, _ | _, XNaN => false
  | XInf sa, XInf sb => sa || negb sb
  | XInf sa, XFin _ _ => sa
  | XFin _ _, XInf sb => negb sb
  | XFin m1 e1, XFin m2 e2 =>
      let e := Z.min e1 e2 in
      m1 * 2 ^ (e1 - e) <=? m2 * 2 ^ (e2 - e)
  end.

(** [a <= b], which the source does not use: it states that a value is
    within the limits of a feature. *)
Definition py_le (a b : pyval) : result bool :=
  match a, b with
  | VStr s1, VStr s2 => Ok (String.leb s1 s2)
  | _, _ =>
      match real_value a, real_value b with
      | Some x, Some y => Ok (xreal_leb x y)
      | _, _ => Raise TypeError
      end
  end.

(** The float nearest to an integer (ties to even). *)
Definition float_of_Z (z : Z) : float :=
  SF2Prim (binary_normalize 53 1024 z 0 false).

(** [float(v)].  The source applies it to numbers only; Python parses a
    string, which has no counterpart here and stands as an error. *)
Definition py_float (v : pyval) : result float :=
  match v with
  | VBool b => Ok (if b then 1%float else 0%float)
  | VInt z =>
      let f := float_of_Z z in
      if PrimFloat.is_infinity f then Raise OverflowError else Ok f
  | VFloat f => Ok f
  | VNone | VStr _ => Raise TypeError
  end.

(** [int(v)]: a float is truncated towards zero.  As for [float(v)], the
    source applies it to numbers only. *)
Definition py_int (v : pyval) : result Z :=
  match v with
  | VBool b => Ok (Z.b2z b)
  | VInt z => Ok z
  | VFloat f =>
      match float_xreal f with
      | XNaN => Raise ValueError
      | XInf _ => Raise OverflowError
      | XFin m e => Ok (if 0 <=? e then m * 2 ^ e else Z.quot m (2 ^ (- e)))
      end
  | VNone | VStr _ => Raise TypeError
  end.

(** [a / b] for a float [a]. *)
Definition py_truediv (a : float) (b : pyval) : result float :=
  if is_number b then
    match py_float b with
    | Ok d => if PrimFloat.eqb d 0%float then Raise ZeroDivisionError
              else Ok (a / d)%float
    | Raise e => Raise e
    end
  else Raise TypeError.

(** [min(a, b)]: the second argument replaces the first when it is
    smaller. *)
Definition py_min (a b : pyval) : result pyval :=
  match py_lt b a with
  | Ok lt => Ok (if lt then b else a)
  | Raise e => Raise e
  end.

(** [d[k]] and [d[k] = v] on a dictionary with string keys. *)
Definition dict_getitem (d : gmap string pyval) (k : string) : result pyval :=
  match d !! k with
  | Some v => Ok v
  | None => Raise KeyError
  end.

Definition dict_setitem (d : gmap string pyval) (k : string) (v : pyval)
  : gmap string pyval := <[k := v]> d.

(** ** CameraDataThread

    The producer.  Its [run] loop is left out; of [threading.Thread] the
    model keeps what [start] and [join] test: whether the thread was ever
    started, and whether it is alive.  The buffer the thread pushes to is
    the one of its [Camera]. *)

Module CameraDataThread.

Record t : Type := mk {
  __frame_time_sec : float;
  __exposure_time : pyval;
  __width : pyval;
  __height : pyval;
  __frame_number : pyint;
  __is_started : bool;
  (* threading.Thread *)
  _started : bool;
  is_alive : bool
}.

Definition set_frame_time_sec (x : float) (th : t) : t :=
  mk x (__exposure_time th) (__width th) (__height th) (__frame_number th)
     (__is_started th) (_started th) (is_alive th).
Definition set_exposure_time (x : pyval) (th : t) : t :=
  mk (__frame_time_sec th) x (__width th) (__height th) (__frame_number th)
     (__is_started th) (_started th) (is_alive th).
Definition set_width (x : pyval) (th : t) : t :=
  mk (__frame_time_sec th) (__exposure_time th) x (__height th)
     (__frame_number th) (__is_started th) (_started th) (is_alive th).
Definition set_height (x : pyval) (th : t) : t :=
  mk (__frame_time_sec th) (__exposure_time th) (__width th) x
     (__frame_number th) (__is_started th) (_started th) (is_alive th).
Definition set_is_started (b : bool) (th : t) : t :=
  mk (__frame_time_sec th) (__exposure_time th) (__width th) (__height th)
     (__frame_number th) b (_started th) (is_alive th).
Definition set_running (started alive : bool) (th : t) : t :=
  mk (__frame_time_sec th) (__exposure_time th) (__width th) (__height th)
     (__frame_number th) (__is_started th) started alive.

(** [CameraDataThread(buffer)] *)
Definition init : t :=
  mk 1%float (VFloat 1%float) (VInt 640) (VInt 512) (PyInt 1) false
     false false.

(** A draw of [self.__rng.integers(low, high)]: a [numpy.int64] from [low]
    up to, and not including, [high]. *)
Definition drawn (low high v : Z) : Prop := low <= v < high.

(** [__generageFrameNumber()], given what the two calls of
    [self.__rng.integers] return: [rand_value] for [integers(0, 65535)] and
    [skip] for [integers(0, 5)], which is only drawn when
    [rand_value < 650]. *)
Definition __generageFrameNumber (rand_value skip : Z) (th : t) : pyint :=
  let frame_count := PyInt 1 in
  let frame_count :=
    if rand_value <? 650 then int_add frame_count (NpInt64 skip)
    else frame_count in
  let frame_number := int_add (__frame_number th) frame_count in
  frame_number.

(** [threading.Thread.start]: a thread can only be started once. *)
Definition Thread_start : M t unit :=
  th ← get_state;
  if _started th then raise RuntimeError
  else modify (set_running true true).

(** [threading.Thread.join]: a thread that was never started cannot be
    joined; otherwise [join] returns when [run] has returned, which it does
    once [__is_started] is false. *)
Definition Thread_join : M t unit :=
  th ← get_state;
  if _started th then modify (set_running true false)
  else raise RuntimeError.

(** [stop()] *)
Definition stop : M t unit :=
  th ← get_state;
  if negb (__is_started th) then ret tt
  else
    modify (set_is_started false);;
    Thread_join.

(** [start()] *)
Definition start : M t unit :=
  stop;;
  modify (set_is_started true);;
  Thread_start.

(** [setFrameRate(framerate)] *)
Definition setFrameRate (framerate : pyval) : M t unit :=
  x ← lift (py_truediv 1%float framerate);
  modify (set_frame_time_sec x).

(** [setExposureTime(exposuretime)] *)
Definition setExposureTime (exposuretime : pyval) : M t unit :=
  modify (set_exposure_time exposuretime).

(** [setWidth(width)] *)
Definition setWidth (width : pyval) : M t unit :=
  modify (set_width width).

(** [setHeight(height)] *)
Definition setHeight (height : pyval) : M t unit :=
  modify (set_height height).

(** [threading.Thread.start] was called on the thread. *)
Definition was_started (th : t) : Prop := _started th = true.

Definition set_frame_number (n : pyint) (th : t) : t :=
  mk (__frame_time_sec th) (__exposure_time th) (__width th) (__height th)
     n (__is_started th) (_started th) (is_alive th).

(** [100 * v]: an integer for an integer or a boolean, a float for a
    float, and for a string its repetition. *)
Definition py_mul_100 (v : pyval) : result pyval :=
  match v with
  | VBool b => Ok (VInt (100 * Z.b2z b))
  | VInt z => Ok (VInt (100 * z))
  | VFloat f => Ok (VFloat (100 * f)%float)
  | VStr s => Ok (VStr (String.concat "" (replicate 100 s)))
  | VNone => Raise TypeError
  end.

Section frame_generation.

(** [numpy.full((height, width), fill_value, dtype=numpy.uint16)], which
    is not of this repository: the matrix it builds, or the exception it
    raises. *)
Variable np_full : pyval -> pyval -> pyval -> result (list (list Z)).

(** [__generateFrame()], given the draws of [__generageFrameNumber] and
    the reading of [time.time()]. *)
Definition __generateFrame (rand_value skip : Z) (now : float) : M t Frame :=
  th ← get_state;
  fill_value ← lift (py_mul_100 (__exposure_time th));
  data ← lift (np_full (__height th) (__width th) fill_value);
  modify (set_frame_number (__generageFrameNumber rand_value skip th));;
  th ← get_state;
  ret (mkFrame data (__frame_number th) now).

(** [__generateFrame()] called once for each triple of draws and clock
    reading, with the frames in the order they were made. *)
Fixpoint generate_frames (inputs : list (Z * Z * float)) : M t (list Frame) :=
  match inputs with
  | [] => ret []
  | (rand_value, skip, now) :: rest =>
      frame ← __generateFrame rand_value skip now;
      frames ← generate_frames rest;
      ret (frame :: frames)
  end.

End frame_generation.

(** Each number of the list is 1 to 5 above the one before it, the first
    one above [prev]. *)
Fixpoint advancing (prev : Z) (numbers : list Z) : Prop :=
  match numbers with
  | [] => True
  | n :: rest => 1 <= n - prev <= 5 /\ advancing n rest
  end.

(** The flags of a thread nobody has started. *)
Definition never_started (th : t) : Prop :=
  __is_started th = false /\ _started th = false.

End CameraDataThread.

(** ** Camera *)

Module Camera.

Record t : Type := mk {
  __features : gmap string pyval;
  __buffer : RingBuffer.t;
  __thread : option CameraDataThread.t
}.

Definition set_features (d : gmap string pyval) (c : t) : t :=
  mk d (__buffer c) (__thread c).
Definition set_buffer (b : RingBuffer.t) (c : t) : t :=
  mk (__features c) b (__thread c).
Definition set_thread (th : option CameraDataThread.t) (c : t) : t :=
  mk (__features c) (__buffer c) th.

(** [Camera()] *)
Definition init : t :=
  mk (list_to_map
        [("framerate", VInt 10); ("exposuretime", VInt 1);
         ("width", VInt 640); ("height", VInt 512);
         ("start", VNone); ("stop", VNone); ("isstarted", VBool false)])
     (RingBuffer.init 100)
     None.

(** [self.__features[k]] and [self.__features[k] = v] *)
Definition feature (k : string) : M t pyval :=
  c ← get_state;
  lift (dict_getitem (__features c) k).

Definition feature_assign (k : string) (v : pyval) : M t unit :=
  modify (fun c => set_features (dict_setitem (__features c) k v) c).

(** [self.__thread.method(...)]: with [self.__thread] being [None] the
    attribute lookup raises. *)
Definition on_thread {A} (method : M CameraDataThread.t A) : M t A :=
  fun c =>
    match __thread c with
    | None => (Raise AttributeError, c)
    | Some th =>
        let '(r, th') := method th in
        (r, set_thread (Some th') c)
    end.

(** [self.__thread.method(arg)] where evaluating [arg] reads the camera:
    the attribute lookup on [self.__thread] comes first, then the argument,
    then the call. *)
Definition call_thread {A B} (arg : M t A)
    (method : A -> M CameraDataThread.t B) : M t B :=
  c ← get_state;
  match __thread c with
  | None => raise AttributeError
  | Some _ => v ← arg; on_thread (method v)
  end.

(** [self.__buffer.method(...)] *)
Definition on_buffer {A} (method : M RingBuffer.t A) : M t A :=
  fun c =>
    let '(r, b') := method (__buffer c) in
    (r, set_buffer b' c).

(** [__createThread()] *)
Definition __createThread : M t unit :=
  c ← get_state;
  match __thread c with
  | None => modify (set_thread (Some CameraDataThread.init))
  | Some _ => ret tt
  end.

(** [__adjustExposureTime(framerate)] *)
Definition __adjustExposureTime (framerate : pyval) : M t pyval :=
  frame_time ← lift (py_truediv 1000%float framerate);
  exposure_time ← feature "exposuretime";
  exposure_time ← lift (py_min exposure_time (VFloat frame_time));
  ret exposure_time.

(** [__setFrameRate(framerate)] *)
Definition __setFrameRate (framerate : pyval) : M t bool :=
  if negb (is_number framerate) then ret false else
  below ← lift (py_lt framerate (VFloat 1%float));
  if below : bool then ret false else
  above ← lift (py_gt framerate (VFloat 50%float));
  if above : bool then ret false else
  framerate ← lift (py_float framerate);
  feature_assign "framerate" (VFloat framerate);;
  (e ← __adjustExposureTime (VFloat framerate);
   feature_assign "exposuretime" e);;
  __createThread;;
  call_thread (feature "framerate") CameraDataThread.setFrameRate;;
  call_thread (feature "exposuretime") CameraDataThread.setExposureTime;;
  ret true.

(** [__getFrameRate()] *)
Definition __getFrameRate : M t pyval := feature "framerate".

(** [__setExposureTime(exposuretime)] *)
Definition __setExposureTime (exposuretime : pyval) : M t bool :=
  if negb (is_number exposuretime) then ret false else
  below ← lift (py_lt exposuretime (VFloat 0.1%float));
  if below : bool then ret false else
  above ← lift (py_gt exposuretime (VFloat 30%float));
  if above : bool then ret false else
  exposuretime ← lift (py_float exposuretime);
  feature_assign "exposuretime" (VFloat exposuretime);;
  __createThread;;
  on_thread (CameraDataThread.setExposureTime (VFloat exposuretime));;
  ret true.

(** [__getExposureTime()] *)
Definition __getExposureTime : M t pyval := feature "exposuretime".

(** [__setWidth(width)] *)
Definition __setWidth (width : pyval) : M t bool :=
  if negb (is_number width) then ret false else
  below ← lift (py_lt width (VInt 100));
  if below : bool then ret false else
  above ← lift (py_gt width (VInt 1000));
  if above : bool then ret false else
  width ← lift (py_int width);
  feature_assign "width" (VInt width);;
  on_thread (CameraDataThread.setWidth (VInt width));;
  ret true.

(** [__getWidth()] *)
Definition __getWidth : M t pyval := feature "width".

(** [__setHeight(height)] *)
Definition __setHeight (height : pyval) : M t bool :=
  if negb (is_number height) then ret false else
  below ← lift (py_lt height (VInt 100));
  if below : bool then ret false else
  above ← lift (py_gt height (VInt 1000));
  if above : bool then ret false else
  height ← lift (py_int height);
  feature_assign "height" (VInt height);;
  on_thread (CameraDataThread.setHeight (VInt height));;
  ret true.

(** [__getHeight()] *)
Definition __getHeight : M t pyval := feature "height".

(** [__isStarted()] *)
Definition __isStarted : M t pyval := feature "isstarted".

(** [get(feature_name)] *)
Definition get (feature_name : string) : M t pyval :=
  if String.eqb feature_name "framerate" then __getFrameRate
  else if String.eqb feature_name "exposuretime" then __getExposureTime
  else if String.eqb feature_name "width" then __getWidth
  else if String.eqb feature_name "height" then __getHeight
  else if String.eqb feature_name "isstarted" then __isStarted
  else ret VNone.

(** [__start()] *)
Definition __start : M t bool :=
  try_except
    (feature_assign "isstarted" (VBool true);;
     __createThread;;
     call_thread (get "framerate") CameraDataThread.setFrameRate;;
     call_thread (get "exposuretime") CameraDataThread.setExposureTime;;
     call_thread (get "width") CameraDataThread.setWidth;;
     call_thread (get "height") CameraDataThread.setHeight;;
     on_buffer RingBuffer.sync;;
     on_thread CameraDataThread.start;;
     ret true)
    (ret false).

(** The statements of [__start] after the first one. *)
Definition start_rest : M t bool :=
  __createThread;;
  call_thread (get "framerate") CameraDataThread.setFrameRate;;
  call_thread (get "exposuretime") CameraDataThread.setExposureTime;;
  call_thread (get "width") CameraDataThread.setWidth;;
  call_thread (get "height") CameraDataThread.setHeight;;
  on_buffer RingBuffer.sync;;
  on_thread CameraDataThread.start;;
  ret true.

(** [__stop()] *)
Definition __stop : M t bool :=
  try_except
    (feature_assign "isstarted" (VBool false);;
     on_thread CameraDataThread.stop;;
     modify (set_thread None);;
     ret true)
    (ret false).

(** [set(feature_name, value)] *)
Definition set (feature_name : string) (value : pyval) : M t bool :=
  if String.eqb feature_name "framerate" then __setFrameRate value
  else if String.eqb feature_name "exposuretime" then __setExposureTime value
  else if String.eqb feature_name "width" then __setWidth value
  else if String.eqb feature_name "height" then __setHeight value
  else if String.eqb feature_name "start" then __start
  else if String.eqb feature_name "stop" then __stop
  else ret false.

(** The producer once [__createThread()] has run: the one there was, or
    a new one. *)
Definition producer (c : t) : CameraDataThread.t :=
  default CameraDataThread.init (__thread c).

(** [v == True] *)
Definition py_eq_True (v : pyval) : bool :=
  match v with
  | VBool b => b
  | VInt z => z =? 1
  | VFloat f => PrimFloat.eqb f 1%float
  | VNone | VStr _ => false
  end.

(** What the producer does to the buffer while the caller is between two
    of its own steps: it pushes the frames it has made. *)
Definition arrive (frames : list Frame) (b : RingBuffer.t) : RingBuffer.t :=
  snd (RingBuffer.push_all frames b).

(** The loop of [get_frame].  Each turn takes from [turns] the frames that
    the producer pushes before the [pop] of this turn, and the reading [t2]
    of [time.time()] after it.  The result is [None] when the turns given
    do not reach the end of the loop, and otherwise what [get_frame]
    returns: a frame, or Python's [None] once [time_spent] is no longer
    below [timeout]. *)
Fixpoint get_frame_loop (timeout : pyval) (t1 : float) (time_spent : pyval)
    (turns : list (list Frame * float))
  : M RingBuffer.t (option (option Frame)) :=
  below ← lift (py_lt time_spent timeout);
  if below : bool then
    match turns with
    | [] => ret None
    | (arrivals, t2) :: rest =>
        modify (arrive arrivals);;
        frame ← RingBuffer.pop;
        match frame with
        | Some f => ret (Some (Some f))
        | None => get_frame_loop timeout t1 (VFloat (t2 - t1)%float) rest
        end
    end
  else ret (Some None).

(** [get_frame(timeout, sync)], with [t1] the first reading of
    [time.time()]. *)
Definition get_frame (timeout sync : pyval) (t1 : float)
    (turns : list (list Frame * float)) : M t (option (option Frame)) :=
  (if py_eq_True sync then on_buffer RingBuffer.sync else ret tt);;
  on_buffer (get_frame_loop timeout t1 (VInt 0) turns).

(** The keys of [self.__features]. *)
Definition feature_names : gset string :=
  {[ "framerate"; "exposuretime"; "width"; "height"; "start"; "stop";
     "isstarted" ]}.

(** The four features that [__start] hands to the producer are stored,
    and the frame rate divides 1.0 into the frame time [x]. *)
Definition configured (c : t) (fr e w h : pyval) (x : float) : Prop :=
  __features c !! "framerate" = Some fr
  /\ __features c !! "exposuretime" = Some e
  /\ __features c !! "width" = Some w
  /\ __features c !! "height" = Some h
  /\ py_truediv 1%float fr = Ok x.

(** The producer that [__start] can start: none yet, or one that nobody
    has started. *)
Definition startable (c : t) : Prop :=
  match __thread c with
  | None => True
  | Some th => CameraDataThread.never_started th
  end.

(** The producer, if there is one, is not marked as started without
    [threading.Thread.start] having been called on it. *)
Definition producer_consistent (c : t) : Prop :=
  forall th : CameraDataThread.t,
    __thread c = Some th ->
    CameraDataThread.__is_started th = true ->
    CameraDataThread._started th = true.

(** The producer exists and [threading.Thread.start] was called on it. *)
Definition thread_was_started (c : t) : Prop :=
  exists th : CameraDataThread.t,
    __thread c = Some th /\ CameraDataThread.was_started th.

End Camera.

(** ** CameraLibrary, of Resources/CameraLibrary.py *)

Module CameraLibrary.

Record t : Type := mk { camera : option Camera.t }.

(** [CameraLibrary()] *)
Definition init : t := mk None.

(** [self.camera.method(...)]: with [self.camera] being [None] the
    attribute lookup raises. *)
Definition on_camera {A} (method : M Camera.t A) : M t A :=
  fun l =>
    match camera l with
    | None => (Raise AttributeError, l)
    | Some c =>
        let '(r, c') := method c in
        (r, mk (Some c'))
    end.

(** [create_camera()]; the camera it returns is the one it stores. *)
Definition create_camera : M t Camera.t :=
  modify (fun _ => mk (Some Camera.init));;
  ret Camera.init.

Definition camera_start : M t bool := on_camera (Camera.set "start" VNone).
Definition camera_stop : M t bool := on_camera (Camera.set "stop" VNone).
Definition is_camera_started : M t pyval :=
  on_camera (Camera.get "isstarted").
Definition get_camera_frame (timeout : pyval) (t1 : float)
    (turns : list (list Frame * float)) : M t (option (option Frame)) :=
  on_camera (Camera.get_frame timeout (VBool false) t1 turns).
Definition get_camera_framerate : M t pyval :=
  on_camera (Camera.get "framerate").
Definition get_camera_exposuretime : M t pyval :=
  on_camera (Camera.get "exposuretime").
Definition get_camera_width : M t pyval := on_camera (Camera.get "width").
Definition get_camera_height : M t pyval := on_camera (Camera.get "height").
Definition set_camera_framerate (value : pyval) : M t bool :=
  on_camera (Camera.set "framerate" value).
Definition set_camera_exposuretime (value : pyval) : M t bool :=
  on_camera (Camera.set "exposuretime" value).
Definition set_camera_width (value : pyval) : M t bool :=
  on_camera (Camera.set "width" value).
Definition set_camera_height (value : pyval) : M t bool :=
  on_camera (Camera.set "height" value).

End CameraLibrary.

(** * Properties *)

(** Unfolds the monad in a goal. *)
Ltac run_m :=
  unfold mbind, mret, M_bind, M_ret, bind, ret, raise, lift, modify,
    get_state, try_except in *; cbn beta iota in *.

(** ** Python subscripts within range *)

Lemma py_index_in_range {A} (l : list A) (i : Z) :
  0 <= i < Z.of_nat (length l) -> py_index l i = Some (Z.to_nat i).
Proof.
  intros Hi. unfold py_index.
  destruct (Z.leb_spec 0 i), (Z.ltb_spec i (Z.of_nat (length l))); simpl;
    try lia; reflexivity.
Qed.

Lemma py_index_empty {A} (i : Z) : py_index (@nil A) i = None.
Proof.
  unfold py_index. change (Z.of_nat (length (@nil A))) with 0.
  change (- 0) with 0.
  destruct ((0 <=? i) && (i <? 0)) eqn:E; [lia | reflexivity].
Qed.

Lemma list_setitem_in_range {A} (l : list A) (i : Z) (x : A) :
  0 <= i < Z.of_nat (length l) ->
  list_setitem l i x = Ok (<[Z.to_nat i := x]> l).
Proof. intros Hi. unfold list_setitem. now rewrite py_index_in_range. Qed.

Lemma list_getitem_in_range {A} (l : list A) (i : Z) (x : A) :
  0 <= i -> l !! Z.to_nat i = Some x -> list_getitem l i = Ok x.
Proof.
  intros Hi Hx. unfold list_getitem.
  rewrite py_index_in_range.
  - now rewrite Hx.
  - apply lookup_lt_Some in Hx. lia.
Qed.

Lemma py_mod_pos (a b : Z) : 0 < b -> py_mod a b = Ok (a mod b).
Proof.
  intros Hb. unfold py_mod. destruct (Z.eqb_spec b 0); [lia | reflexivity].
Qed.

(** The successor of an index of a ring of [n] slots. *)
Lemma succ_mod (i n : Z) :
  0 <= i < n -> (i + 1) mod n = if decide (i + 1 = n) then 0 else i + 1.
Proof.
  intros Hi. destruct (decide (i + 1 = n)) as [->|Hne].
  - apply Z.mod_same. lia.
  - apply Z.mod_small. lia.
Qed.

(** ** RingBuffer: one operation *)

Section ring_buffer_operations.
Import RingBuffer.

Lemma push_well_formed (f : Frame) (r : t) :
  well_formed r ->
  push f r =
    (Ok tt,
     mk (__size r) (<[Z.to_nat (__write_index r) := Some f]> (__frames r))
        ((__write_index r + 1) mod __size r) (__read_index r)
        (__write_count r + 1) (__read_count r)).
Proof.
  intros (Hsz & Hlen & Hwi & Hri). unfold push. run_m.
  rewrite list_setitem_in_range by lia. cbn.
  rewrite py_mod_pos by lia. reflexivity.
Qed.

Lemma pop_guarded (r : t) : pop_guard r = true -> pop r = (Ok None, r).
Proof. intros H. unfold pop, pop_guard in *. run_m. now rewrite H. Qed.

Lemma pop_well_formed (r : t) (x : option Frame) :
  well_formed r ->
  pop_guard r = false ->
  __frames r !! Z.to_nat (__read_index r) = Some x ->
  pop r =
    (Ok x,
     mk (__size r) (__frames r) (__write_index r)
        ((__read_index r + 1) mod __size r)
        (__write_count r) (__read_count r + 1)).
Proof.
  intros (Hsz & Hlen & Hwi & Hri) Hg Hx. unfold pop, pop_guard in *. run_m.
  rewrite Hg. rewrite (list_getitem_in_range _ _ x) by (lia || assumption).
  cbn. rewrite py_mod_pos by lia. reflexivity.
Qed.

Lemma sync_run (r : t) :
  sync r =
    (Ok tt,
     mk (__size r) (__frames r) (__write_index r) (__write_index r) 0 0).
Proof. reflexivity. Qed.

End ring_buffer_operations.

(** ** RingBuffer: the invariant of the reachable states *)

Section ring_buffer_invariant.
Import RingBuffer.

Lemma invariant_init (sz : Z) : invariant sz (init sz).
Proof.
  unfold invariant, init; cbn. rewrite length_replicate.
  repeat split; try lia. exists 0. lia.
Qed.

(** With no slot, [push] raises and changes nothing. *)
Lemma push_no_slot (f : Frame) (r r' : t) (sz : Z) :
  invariant sz r -> sz <= 0 -> push f r <> (Ok tt, r').
Proof.
  intros (Hsz & Hlen & _) Hle. unfold push. run_m. unfold list_setitem.
  destruct (__frames r) as [|x l]; [|simpl in Hlen; lia].
  rewrite py_index_empty. discriminate.
Qed.

Lemma invariant_well_formed (sz : Z) (r : t) :
  invariant sz r -> 0 < sz -> well_formed r.
Proof.
  intros (Hsz & Hlen & Hwi & Hri & _) Hpos. unfold well_formed.
  rewrite Hsz. repeat split; lia.
Qed.

Lemma invariant_push (sz : Z) (f : Frame) (r r' : t) :
  invariant sz r -> push f r = (Ok tt, r') -> invariant sz r'.
Proof.
  intros Hinv Hpush.
  destruct (Z.le_gt_cases sz 0) as [Hle|Hpos].
  { now destruct (push_no_slot f r r' sz). }
  rewrite (push_well_formed f r) in Hpush
    by (eapply invariant_well_formed; eauto; lia).
  destruct Hinv as (Hsz & Hlen & Hwi & Hri & Hcnt & k & Hk).
  injection Hpush as <-. unfold invariant; cbn.
  rewrite length_insert, Hsz, succ_mod by lia.
  repeat split; try lia.
  - destruct (decide _); lia.
  - destruct (decide _); lia.
  - destruct (decide (__write_index r + 1 = sz)).
    + exists (k - 1). lia.
    + exists k. lia.
Qed.

Lemma invariant_pop (sz : Z) (o : option Frame) (r r' : t) :
  invariant sz r -> pop r = (Ok o, r') -> invariant sz r'.
Proof.
  intros Hinv Hpop.
  destruct (pop_guard r) eqn:Hg.
  { rewrite pop_guarded in Hpop by assumption. now injection Hpop as _ <-. }
  pose proof Hinv as (Hsz & Hlen & Hwi & Hri & Hcnt & k & Hk).
  unfold pop_guard in Hg. apply orb_false_elim in Hg as [_ Hne].
  apply Z.eqb_neq in Hne.
  assert (Hpos : 0 < sz) by lia.
  destruct (lookup_lt_is_Some_2 (__frames r) (Z.to_nat (__read_index r)))
    as [x Hx]; [lia|].
  rewrite (pop_well_formed r x) in Hpop;
    [ | eapply invariant_well_formed; eauto
      | unfold pop_guard; apply orb_false_intro; lia
      | assumption ].
  injection Hpop as _ <-. unfold invariant; cbn.
  rewrite Hsz, succ_mod by lia.
  assert (__read_count r <> __write_count r).
  { intros Heq. destruct (Z.lt_trichotomy k 0) as [Hk0|[Hk0|Hk0]]; nia. }
  repeat split; try lia.
  - destruct (decide _); lia.
  - destruct (decide _); lia.
  - destruct (decide (__read_index r + 1 = sz)).
    + exists (k + 1). lia.
    + exists k. lia.
Qed.

Lemma invariant_sync (sz : Z) (r r' : t) :
  invariant sz r -> sync r = (Ok tt, r') -> invariant sz r'.
Proof.
  intros (Hsz & Hlen & Hwi & Hri & Hcnt & k & Hk) Hsync.
  rewrite sync_run in Hsync. injection Hsync as <-.
  unfold invariant; cbn. repeat split; try lia. exists 0. lia.
Qed.

Lemma invariant_step (sz : Z) (r r' : t) :
  invariant sz r -> step r r' -> invariant sz r'.
Proof.
  intros Hinv [f Hpush | o Hpop | Hsync];
    eauto using invariant_push, invariant_pop, invariant_sync.
Qed.

Lemma reachable_invariant (sz : Z) (r : t) :
  reachable sz r -> invariant sz r.
Proof.
  induction 1 as [|r r' _ IH Hstep];
    eauto using invariant_init, invariant_step.
Qed.

End ring_buffer_invariant.

(** ** RingBuffer: pushes from a fresh buffer, then pops *)

Section ring_buffer_runs.
Import RingBuffer.

Lemma push_all_app (fs1 fs2 : list Frame) (r : t) :
  push_all (fs1 ++ fs2) r = (push_all fs1;; push_all fs2) r.
Proof.
  revert r. induction fs1 as [|f fs1 IH]; intros r; cbn.
  - reflexivity.
  - run_m. destruct (push f r) as [[[]|e] r1]; [apply IH | reflexivity].
Qed.

(** After [n] pushes the write index is at [n mod C], and the slots below
    it hold the last [n mod C] frames pushed. *)
Lemma push_all_init (C : Z) (fs : list Frame) :
  0 < C ->
  let n := length fs in
  let w := Z.to_nat (Z.of_nat n mod C) in
  exists slots : list (option Frame),
    push_all fs (init C) = (Ok tt, mk C slots (Z.of_nat w) 0 (Z.of_nat n) 0)
    /\ length slots = Z.to_nat C
    /\ forall i : nat, (i < w)%nat -> slots !! i = Some (fs !! (n - w + i)%nat).
Proof.
  intros HC. induction fs as [|f fs IH] using rev_ind; cbn zeta.
  - exists (replicate (Z.to_nat C) None). cbn.
    rewrite Z.mod_0_l by lia. repeat split.
    + apply length_replicate.
    + intros i Hi. cbn in Hi. lia.
  - destruct IH as (slots & Hrun & Hlen & Hslots).
    set (n := length fs) in *.
    set (w := Z.to_nat (Z.of_nat n mod C)) in *.
    pose proof (Z.mod_pos_bound (Z.of_nat n) C HC) as Hw.
    exists (<[w := Some f]> slots).
    rewrite push_all_app. run_m. rewrite Hrun. cbn [push_all]. run_m.
    rewrite push_well_formed by (unfold well_formed; cbn; lia). cbn.
    rewrite length_app, length_insert. cbn [length]. fold n.
    replace (Z.of_nat (n + 1)) with (Z.of_nat n + 1) by lia.
    assert (Hw' : (Z.of_nat w + 1) mod C = (Z.of_nat n + 1) mod C).
    { unfold w. rewrite Z2Nat.id by lia. apply Zplus_mod_idemp_l. }
    rewrite Nat2Z.id, Hw'. repeat split; [|assumption|].
    + rewrite Z2Nat.id by (apply Z.mod_pos_bound; lia). reflexivity.
    + rewrite <- Hw', succ_mod by lia.
      destruct (decide (Z.of_nat w + 1 = C)); [cbn; lia|].
      intros i Hi. replace (Z.to_nat (Z.of_nat w + 1)) with (S w) in * by lia.
      assert (Hwn : (w <= n)%nat).
      { unfold w. pose proof (Z.mod_le (Z.of_nat n) C). lia. }
      destruct (decide (i = w)) as [->|Hne].
      * rewrite list_lookup_insert_eq by lia.
        replace (n + 1 - S w + w)%nat with n by lia.
        now rewrite lookup_app_r, Nat.sub_diag by (fold n; lia).
      * rewrite list_lookup_insert_ne by lia.
        rewrite Hslots by lia.
        rewrite lookup_app_l by (fold n; lia).
        do 2 f_equal. lia.
Qed.

(** [m] pops return what lies between the read and the write index, and
    [None] from there on. *)
Lemma pop_n_between (m : nat) (r : t) :
  well_formed r ->
  __read_index r <= __write_index r ->
  __read_count r + (__write_index r - __read_index r) <= __write_count r ->
  fst (pop_n m r) =
    Ok (take m (drop (Z.to_nat (__read_index r))
                     (take (Z.to_nat (__write_index r)) (__frames r)))
        ++ replicate (m - Z.to_nat (__write_index r - __read_index r)) None).
Proof.
  revert r. induction m as [|m IH]; intros r Hwf Hle Hcnt; [reflexivity|].
  pose proof Hwf as (Hsz & Hlen & Hwi & Hri).
  cbn [pop_n]. run_m.
  destruct (decide (__read_index r = __write_index r)) as [Heq|Hne].
  - rewrite pop_guarded
      by (unfold pop_guard; apply orb_true_intro; right; lia).
    specialize (IH r Hwf Hle Hcnt). destruct (pop_n m r) as [[xs|e] r1];
      cbn in IH; [|discriminate]. injection IH as ->. cbn.
    rewrite !drop_ge by (rewrite length_take; lia).
    rewrite !take_nil. cbn.
    replace (Z.to_nat (__write_index r - __read_index r)) with 0%nat by lia.
    now rewrite !Nat.sub_0_r.
  - destruct (lookup_lt_is_Some_2 (__frames r) (Z.to_nat (__read_index r)))
      as [x Hx]; [lia|].
    rewrite (pop_well_formed r x);
      [ | assumption | unfold pop_guard; apply orb_false_intro; lia
        | assumption ].
    rewrite Z.mod_small by lia.
    match goal with |- context [pop_n m ?r1] => specialize (IH r1) end.
    cbn in IH. specialize (IH ltac:(unfold well_formed; cbn; lia)
                              ltac:(lia) ltac:(lia)).
    match goal with |- context [pop_n m ?r1] =>
      destruct (pop_n m r1) as [[xs|e] r2] end;
      cbn in IH; [|discriminate]. injection IH as ->. cbn.
    f_equal.
    rewrite (drop_S _ x (Z.to_nat (__read_index r)))
      by (rewrite lookup_take_lt by lia; assumption).
    cbn. f_equal.
    replace (Z.to_nat (__read_index r + 1))
      with (S (Z.to_nat (__read_index r))) by lia.
    f_equal. f_equal. lia.
Qed.

(** Pushing [n] frames into a fresh buffer of [C] slots and popping [m]
    times returns the last [n mod C] frames pushed, oldest first, and
    [None] from there on. *)
Lemma pops_after_pushes (C : Z) (fs : list Frame) (m : nat) :
  0 < C ->
  let w := Z.to_nat (Z.of_nat (length fs) mod C) in
  fst ((push_all fs;; pop_n m) (init C)) =
    Ok ((Some <$> take m (drop (length fs - w) fs))
        ++ replicate (m - w) None).
Proof.
  intros HC w.
  destruct (push_all_init C fs HC) as (slots & Hrun & Hlen & Hslots).
  fold w in Hrun, Hslots.
  pose proof (Z.mod_pos_bound (Z.of_nat (length fs)) C HC) as Hw.
  assert (Hwn : (w <= length fs)%nat).
  { unfold w. pose proof (Z.mod_le (Z.of_nat (length fs)) C). lia. }
  run_m. rewrite Hrun.
  rewrite pop_n_between by (unfold well_formed; cbn; lia). cbn.
  rewrite Nat2Z.id, drop_0, Z.sub_0_r, Nat2Z.id. do 2 f_equal.
  rewrite fmap_take. f_equal.
  apply list_eq. intros i.
  destruct (decide (i < w)%nat) as [Hi|Hi].
  - rewrite lookup_take_lt, Hslots by lia.
    rewrite list_lookup_fmap, lookup_drop.
    destruct (lookup_lt_is_Some_2 fs (length fs - w + i)) as [x ->]; [lia|].
    reflexivity.
  - rewrite lookup_take_ge by lia. symmetry.
    apply lookup_ge_None. rewrite length_fmap, length_drop. lia.
Qed.

End ring_buffer_runs.

(** ** RingBuffer: what the buffer guarantees, and where it loses frames *)

Section ring_buffer_claims.
Import RingBuffer.

(** Below the capacity the buffer is a queue: after [n < C] pushes into a
    fresh buffer, [n] pops return the frames in the order of the
    pushes. *)
Lemma fifo_below_capacity (C : Z) (fs : list Frame) :
  Z.of_nat (length fs) < C ->
  fst ((push_all fs;; pop_n (length fs)) (init C)) = Ok (Some <$> fs).
Proof.
  intros Hn. rewrite pops_after_pushes by lia. cbn zeta.
  rewrite Z.mod_small, Nat2Z.id, Nat.sub_diag by lia.
  now rewrite drop_0, firstn_all, app_nil_r.
Qed.

(** C1 (the code departs from it): once exactly [C] frames were pushed
    into a fresh buffer of [C] slots, the write counter is ahead of the
    read counter and every slot holds an unread frame, but the two indices
    coincide, and [pop] returns [None] and leaves the buffer as it is. *)
Theorem pop_at_capacity_returns_none (C : Z) (fs : list Frame) :
  0 < C ->
  Z.of_nat (length fs) = C ->
  exists r : t,
    push_all fs (init C) = (Ok tt, r)
    /\ __read_count r < __write_count r
    /\ __read_index r = __write_index r
    /\ pop r = (Ok None, r).
Proof.
  intros HC Hn.
  destruct (push_all_init C fs HC) as (slots & Hrun & _).
  rewrite Hn, Z.mod_same in Hrun by lia.
  change (Z.of_nat (Z.to_nat 0)) with 0 in Hrun.
  eexists. split; [exact Hrun|]. cbn. repeat split; try lia.
  apply pop_guarded. unfold pop_guard; cbn. apply orb_true_r.
Qed.

Lemma pop_at_capacity_returns_none_witness :
  0 < 2 /\
  Z.of_nat (length [sample_frame 1; sample_frame 2]) = 2 /\
  exists r : t,
    push_all [sample_frame 1; sample_frame 2] (init 2) = (Ok tt, r)
    /\ __read_count r < __write_count r
    /\ __read_index r = __write_index r
    /\ pop r = (Ok None, r).
Proof.
  split; [lia|]. split; [reflexivity|].
  apply pop_at_capacity_returns_none; [lia | reflexivity].
Defined.

(** C4 (the code departs from it at [n = C]): after exactly [C] pushes
    into a fresh buffer of [C] slots, the next [C] pops all return [None];
    none of the pushed frames comes back. *)
Theorem pops_at_capacity_return_nothing (C : Z) (fs : list Frame) :
  0 < C ->
  Z.of_nat (length fs) = C ->
  fst ((push_all fs;; pop_n (length fs)) (init C))
  = Ok (replicate (length fs) None).
Proof.
  intros HC Hn. rewrite pops_after_pushes by lia. cbn zeta.
  rewrite Hn, Z.mod_same by lia. cbn.
  now rewrite Nat.sub_0_r, drop_all, take_nil.
Qed.

Lemma pops_at_capacity_return_nothing_witness :
  0 < 3 /\
  Z.of_nat (length [sample_frame 1; sample_frame 2; sample_frame 3]) = 3 /\
  fst ((push_all [sample_frame 1; sample_frame 2; sample_frame 3];;
        pop_n 3) (init 3))
  = Ok [None; None; None].
Proof.
  split; [lia|]. split; [reflexivity|].
  apply (pops_at_capacity_return_nothing
           3 [sample_frame 1; sample_frame 2; sample_frame 3]);
    [lia | reflexivity].
Defined.

(** C5 (the code departs from it): after [n] pushes into a fresh buffer
    of [C] slots, with [C < n < 2 * C], the pops return the [n - C] frames
    pushed after the first [C], and [None] from there on.  Of the [C]
    most recent frames, the [2 * C - n] oldest are in their slots and are
    not returned. *)
Theorem pops_after_overrun (C : Z) (fs : list Frame) (m : nat) :
  0 < C ->
  C < Z.of_nat (length fs) < 2 * C ->
  fst ((push_all fs;; pop_n m) (init C))
  = Ok ((Some <$> take m (drop (Z.to_nat C) fs))
        ++ replicate (m - (length fs - Z.to_nat C)) None).
Proof.
  intros HC Hn. rewrite pops_after_pushes by lia. cbn zeta.
  assert (Hmod : Z.of_nat (length fs) mod C = Z.of_nat (length fs) - C).
  { symmetry. apply (Z.mod_unique_pos _ _ 1); lia. }
  rewrite Hmod.
  replace (Z.to_nat (Z.of_nat (length fs) - C))
    with (length fs - Z.to_nat C)%nat by lia.
  replace (length fs - (length fs - Z.to_nat C))%nat
    with (Z.to_nat C) by lia.
  reflexivity.
Qed.

Lemma pops_after_overrun_witness :
  0 < 3 /\
  3 < Z.of_nat (length [sample_frame 1; sample_frame 2; sample_frame 3;
                        sample_frame 4]) < 2 * 3 /\
  fst ((push_all [sample_frame 1; sample_frame 2; sample_frame 3;
                  sample_frame 4];;
        pop_n 3) (init 3))
  = Ok [Some (sample_frame 4); None; None].
Proof.
  split; [lia|]. split; [cbn; lia|].
  apply (pops_after_overrun
           3 [sample_frame 1; sample_frame 2; sample_frame 3;
              sample_frame 4] 3); [lia | cbn; lia].
Defined.

(** C6: in every state a buffer reaches from [RingBuffer(sz)] by
    completed [push], [pop] and [sync] operations, the read counter is at
    most the write counter. *)
Theorem read_count_le_write_count (sz : Z) (r : t) :
  reachable sz r -> __read_count r <= __write_count r.
Proof.
  intros Hr. apply reachable_invariant in Hr.
  now destruct Hr as (_ & _ & _ & _ & Hcnt & _).
Qed.

Lemma read_count_le_write_count_witness :
  reachable 2 (mk 2 [Some (sample_frame 1); None] 1 1 1 1) /\
  __read_count (mk 2 [Some (sample_frame 1); None] 1 1 1 1)
  <= __write_count (mk 2 [Some (sample_frame 1); None] 1 1 1 1).
Proof.
  assert (H : reachable 2 (mk 2 [Some (sample_frame 1); None] 1 1 1 1)).
  { eapply reachable_step.
    - eapply reachable_step.
      + apply reachable_init.
      + apply (step_push _ _ (sample_frame 1)). reflexivity.
    - apply (step_pop _ _ (Some (sample_frame 1))). reflexivity. }
  split; [exact H | exact (read_count_le_write_count 2 _ H)].
Defined.

(** C7: in every state of the buffer, so in every reachable one, [sync()]
    followed at once by [pop()] returns [None], whatever was unread
    before; the buffer is left with its indices equal and its counters
    at zero. *)
Theorem sync_then_pop_returns_none (r : t) :
  (sync;; pop) r =
    (Ok None,
     mk (__size r) (__frames r) (__write_index r) (__write_index r) 0 0).
Proof.
  run_m. rewrite sync_run. apply pop_guarded.
  unfold pop_guard; cbn. now rewrite Z.eqb_refl.
Qed.

End ring_buffer_claims.

(** ** CameraDataThread: frame numbers *)

Section frame_numbers.
Import CameraDataThread.

Lemma wrap64_in_range (z : Z) : - 2 ^ 63 <= z < 2 ^ 63 -> wrap64 z = z.
Proof. intros Hz. unfold wrap64. rewrite Z.mod_small; lia. Qed.

(** C9, as the spec has it, fails: with the first draw below 650 the skip
    branch is taken, and with the second draw at 0, which
    [integers(0, 5)] can return, the frame number advances by 1 only. *)
Lemma skip_branch_can_advance_by_one :
  ~ (forall (rand_value skip : Z) (th : t),
        drawn 0 65535 rand_value -> drawn 0 5 skip ->
        let increment :=
          int_value (__generageFrameNumber rand_value skip th)
          - int_value (__frame_number th) in
        1 <= increment <= 6 /\ (rand_value < 650 -> 2 <= increment)).
Proof.
  intros H. specialize (H 0 0 init).
  assert (E : int_value (__generageFrameNumber 0 0 init)
              - int_value (__frame_number init) = 1) by reflexivity.
  cbn zeta in H. rewrite E in H. unfold drawn in H. lia.
Qed.

(** C9, amended: while the frame number stays within [numpy.int64], a
    generated frame number is the previous one plus an increment from 1
    to 5.  When the first draw is below 650 the increment is 1 plus the
    second draw, which is from 0 to 4, and otherwise it is 1. *)
Theorem frame_number_increment (rand_value skip : Z) (th : t) :
  drawn 0 65535 rand_value ->
  drawn 0 5 skip ->
  - 2 ^ 63 <= int_value (__frame_number th) < 2 ^ 63 - 5 ->
  let increment :=
    int_value (__generageFrameNumber rand_value skip th)
    - int_value (__frame_number th) in
  1 <= increment <= 5
  /\ (rand_value < 650 -> increment = 1 + skip)
  /\ (650 <= rand_value -> increment = 1).
Proof.
  unfold drawn. intros Hrand Hskip Hnum. unfold __generageFrameNumber.
  destruct (Z.ltb_spec rand_value 650) as [Hlt|Hge].
  - cbn [int_add int_value].
    rewrite (wrap64_in_range (1 + skip)) by lia.
    assert (Hd : int_value (int_add (__frame_number th)
                                    (NpInt64 (1 + skip)))
                 = int_value (__frame_number th) + (1 + skip)).
    { destruct (__frame_number th) as [z|z]; cbn in *;
        apply wrap64_in_range; lia. }
    cbn zeta. rewrite Hd. lia.
  - assert (Hd : int_value (int_add (__frame_number th) (PyInt 1))
                 = int_value (__frame_number th) + 1).
    { destruct (__frame_number th) as [z|z]; cbn in *;
        [reflexivity | apply wrap64_in_range; lia]. }
    cbn zeta. rewrite Hd. lia.
Qed.

Lemma frame_number_increment_witness :
  drawn 0 65535 3 /\ drawn 0 5 4 /\
  - 2 ^ 63 <= int_value (__frame_number init) < 2 ^ 63 - 5 /\
  1 <= int_value (__generageFrameNumber 3 4 init)
       - int_value (__frame_number init) <= 5.
Proof.
  assert (H1 : drawn 0 65535 3) by (unfold drawn; lia).
  assert (H2 : drawn 0 5 4) by (unfold drawn; lia).
  assert (H3 : - 2 ^ 63 <= int_value (__frame_number init) < 2 ^ 63 - 5)
    by (cbn; lia).
  repeat split; try assumption;
    apply (frame_number_increment 3 4 init H1 H2 H3).
Defined.

End frame_numbers.

(** ** Properties kept along a computation *)

Section monad_facts.
Context {S : Type}.
Implicit Types P : S -> Prop.

Lemma preserves_ret {A} P (a : A) : preserves P (ret a).
Proof. intros s Hs. exact Hs. Qed.

Lemma preserves_lift {A} P (r : result A) : preserves P (lift r).
Proof. intros s Hs. exact Hs. Qed.

Lemma preserves_raise {A} P (e : exn) : preserves P (@raise S A e).
Proof. intros s Hs. exact Hs. Qed.

Lemma preserves_get_state P : preserves P get_state.
Proof. intros s Hs. exact Hs. Qed.

Lemma preserves_modify P (f : S -> S) :
  (forall s, P s -> P (f s)) -> preserves P (modify f).
Proof. intros Hf s Hs. now apply Hf. Qed.

Lemma preserves_bind {A B} P (m : M S A) (k : A -> M S B) :
  preserves P m -> (forall a, preserves P (k a)) -> preserves P (m ≫= k).
Proof.
  intros Hm Hk s Hs. specialize (Hm s Hs). run_m.
  destruct (m s) as [[a|e] s1]; cbn in *; [now apply Hk | assumption].
Qed.

Lemma raises_under_raise {A} P (e : exn) : raises_under P (@raise S A e).
Proof. intros s _. now exists e. Qed.

Lemma raises_under_bind {A B} P (m : M S A) (k : A -> M S B) :
  preserves P m -> (forall a, raises_under P (k a)) ->
  raises_under P (m ≫= k).
Proof.
  intros Hm Hk s Hs. specialize (Hm s Hs). run_m.
  destruct (m s) as [[a|e] s1]; cbn in *; [now apply Hk | now exists e].
Qed.

Lemma raises_under_bind_first {A B} P (m : M S A) (k : A -> M S B) :
  raises_under P m -> raises_under P (m ≫= k).
Proof.
  intros Hm s Hs. destruct (Hm s Hs) as [e He]. run_m.
  destruct (m s) as [[a|e'] s1]; cbn in *; [discriminate | now exists e'].
Qed.

(** A bare [except] turns every exception of the body into the outcome of
    the handler. *)
Lemma try_except_outcome {A} (body : M S A) (a : A) (s : S) :
  try_except body (ret a) s =
    (match fst (body s) with Ok x => Ok x | Raise _ => Ok a end,
     snd (body s)).
Proof. unfold try_except, ret. now destruct (body s) as [[x|e] s1]. Qed.

End monad_facts.

(** ** Camera: starting the acquisition *)

Section camera_start.
Import Camera.

Lemma preserves_feature P (k : string) : preserves P (feature k).
Proof. intros c Hc. exact Hc. Qed.

Lemma preserves_get P (k : string) : preserves P (get k).
Proof.
  unfold get. repeat case_match; try apply preserves_feature.
  apply preserves_ret.
Qed.

Lemma preserves_on_buffer {A} P (m : M RingBuffer.t A) :
  (forall c b, P c -> P (set_buffer b c)) -> preserves P (on_buffer m).
Proof.
  intros HP c Hc. unfold on_buffer.
  destruct (m (__buffer c)) as [r b]. now apply HP.
Qed.

Lemma on_thread_keeps_features {A} (d : gmap string pyval)
    (m : M CameraDataThread.t A) :
  preserves (fun c => __features c = d) (on_thread m).
Proof.
  intros c Hc. unfold on_thread. destruct (__thread c) as [th|]; [|exact Hc].
  now destruct (m th) as [r th'].
Qed.

Lemma on_thread_keeps_started {A} (m : M CameraDataThread.t A) :
  preserves CameraDataThread.was_started m ->
  preserves thread_was_started (on_thread m).
Proof.
  intros Hm c (th & Hth & Hst). unfold on_thread. rewrite Hth.
  specialize (Hm th Hst). destruct (m th) as [r th']; cbn in *.
  now exists th'.
Qed.

Lemma call_thread_keeps_features {A B} (d : gmap string pyval)
    (arg : M t A) (method : A -> M CameraDataThread.t B) :
  preserves (fun c => __features c = d) arg ->
  preserves (fun c => __features c = d) (call_thread arg method).
Proof.
  intros Harg. unfold call_thread.
  apply preserves_bind; [apply preserves_get_state | intros c0].
  destruct (__thread c0); [|apply preserves_raise].
  apply preserves_bind; [exact Harg | intros v].
  apply on_thread_keeps_features.
Qed.

Lemma call_thread_keeps_started {A B} (arg : M t A)
    (method : A -> M CameraDataThread.t B) :
  preserves thread_was_started arg ->
  (forall v, preserves CameraDataThread.was_started (method v)) ->
  preserves thread_was_started (call_thread arg method).
Proof.
  intros Harg Hm. unfold call_thread.
  apply preserves_bind; [apply preserves_get_state | intros c0].
  destruct (__thread c0); [|apply preserves_raise].
  apply preserves_bind; [exact Harg | intros v].
  apply on_thread_keeps_started, Hm.
Qed.

Lemma on_thread_raises {A} (m : M CameraDataThread.t A) :
  raises_under CameraDataThread.was_started m ->
  raises_under thread_was_started (on_thread m).
Proof.
  intros Hm c (th & Hth & Hst). unfold on_thread. rewrite Hth.
  destruct (Hm th Hst) as [e He]. destruct (m th) as [r th']; cbn in *.
  now exists e.
Qed.

Lemma createThread_keeps_features (d : gmap string pyval) :
  preserves (fun c => __features c = d) __createThread.
Proof.
  intros c Hc. unfold __createThread. run_m.
  now destruct (__thread c).
Qed.

Lemma createThread_keeps_started :
  preserves thread_was_started __createThread.
Proof.
  intros c (th & Hth & Hst). unfold __createThread. run_m.
  rewrite Hth. cbn. now exists th.
Qed.

Lemma feature_assign_keeps_started (k : string) (v : pyval) :
  preserves thread_was_started (feature_assign k v).
Proof. intros c Hc. exact Hc. Qed.

(** The setters of the producer leave the thread as started as it was. *)
Lemma setFrameRate_keeps_started (v : pyval) :
  preserves CameraDataThread.was_started (CameraDataThread.setFrameRate v).
Proof.
  intros th Hth. unfold CameraDataThread.setFrameRate. run_m.
  now destruct (py_truediv 1 v).
Qed.

Lemma stop_keeps_started :
  preserves CameraDataThread.was_started CameraDataThread.stop.
Proof.
  intros th Hth. unfold CameraDataThread.stop, CameraDataThread.Thread_join.
  run_m. destruct (CameraDataThread.__is_started th); cbn; [|exact Hth].
  unfold CameraDataThread.was_started in Hth. now rewrite Hth.
Qed.

(** [start()] on a thread that was started before raises. *)
Lemma start_again_raises :
  raises_under CameraDataThread.was_started CameraDataThread.start.
Proof.
  unfold CameraDataThread.start.
  apply raises_under_bind; [apply stop_keeps_started | intros _].
  apply raises_under_bind; [now apply preserves_modify | intros _].
  intros th Hth. unfold CameraDataThread.Thread_start. run_m.
  unfold CameraDataThread.was_started in Hth. rewrite Hth.
  now exists RuntimeError.
Qed.

Lemma setters_keep_started (v : pyval) :
  preserves CameraDataThread.was_started (CameraDataThread.setExposureTime v)
  /\ preserves CameraDataThread.was_started (CameraDataThread.setWidth v)
  /\ preserves CameraDataThread.was_started (CameraDataThread.setHeight v).
Proof. repeat split; intros th Hth; exact Hth. Qed.

Lemma start_unfold (c : t) :
  __start c =
    try_except start_rest (ret false)
      (set_features (<["isstarted" := VBool true]> (__features c)) c).
Proof. reflexivity. Qed.

Lemma start_rest_keeps_features (d : gmap string pyval) :
  preserves (fun c => __features c = d) start_rest.
Proof.
  unfold start_rest.
  repeat first
    [ apply preserves_ret
    | apply preserves_get
    | apply createThread_keeps_features
    | apply on_thread_keeps_features
    | apply call_thread_keeps_features
    | apply preserves_on_buffer; intros c b Hc; exact Hc
    | apply preserves_bind; [|intros ?] ].
Qed.

Lemma start_rest_raises : raises_under thread_was_started start_rest.
Proof.
  unfold start_rest.
  apply raises_under_bind; [apply createThread_keeps_started | intros _].
  apply raises_under_bind; [|intros _].
  { apply call_thread_keeps_started; [apply preserves_get | intros v].
    apply setFrameRate_keeps_started. }
  do 3 (apply raises_under_bind; [|intros _];
        [ apply call_thread_keeps_started; [apply preserves_get | intros v];
          apply setters_keep_started | ]).
  apply raises_under_bind; [|intros _].
  { apply preserves_on_buffer. intros c b Hc. exact Hc. }
  apply raises_under_bind_first, on_thread_raises, start_again_raises.
Qed.

(** C2 (the code departs from it): on a camera whose producer thread was
    started before, [set('start')] fails and returns [False] without
    raising, and [get('isstarted')] then returns [True]: the flag that
    [__start] sets first is not taken back when a later step raises. *)
Theorem failed_start_reads_isstarted_true (c : t) :
  thread_was_started c ->
  exists c' : t,
    set "start" VNone c = (Ok false, c')
    /\ get "isstarted" c' = (Ok (VBool true), c').
Proof.
  intros Hc. change (set "start" VNone c) with (__start c).
  rewrite start_unfold, try_except_outcome.
  set (c1 := set_features _ c).
  destruct (start_rest_raises c1 Hc) as [e He]. rewrite He.
  eexists. split; [reflexivity|].
  change (get "isstarted") with (feature "isstarted").
  unfold feature, dict_getitem. run_m.
  rewrite (start_rest_keeps_features _ c1 eq_refl). cbn.
  now rewrite lookup_insert_eq.
Qed.

Lemma failed_start_reads_isstarted_true_witness :
  thread_was_started (snd (set "start" VNone init)) /\
  exists c' : t,
    set "start" VNone (snd (set "start" VNone init)) = (Ok false, c')
    /\ get "isstarted" c' = (Ok (VBool true), c').
Proof.
  assert (H : thread_was_started (snd (set "start" VNone init))).
  { eexists. split; reflexivity. }
  split; [exact H|].
  exact (failed_start_reads_isstarted_true _ H).
Defined.

(** The producer after the second of two starts: it is marked as started,
    and its thread is not alive. *)
Example second_start_leaves_producer_marked :
  exists th : CameraDataThread.t,
    __thread (snd ((set "start" VNone;; set "start" VNone) init)) = Some th
    /\ CameraDataThread.__is_started th = true
    /\ CameraDataThread.is_alive th = false.
Proof. vm_compute. eexists. repeat split; reflexivity. Qed.

End camera_start.

(** ** Comparisons of Python numbers *)

Section comparisons.

Lemma xreal_leb_not_gt (a b : xreal) :
  xreal_leb a b = true -> xreal_ltb b a = false.
Proof.
  destruct a as [|sa|m1 e1], b as [|sb|m2 e2]; cbn; try congruence.
  - destruct sa, sb; cbn; congruence.
  - intros ->. reflexivity.
  - destruct sb; cbn; congruence.
  - rewrite (Z.min_comm e2 e1). intros H.
    apply Z.leb_le in H. apply Z.ltb_ge. exact H.
Qed.

Lemma py_le_is_number (a b : pyval) :
  is_number a = true -> py_le a b = Ok true -> is_number b = true.
Proof. destruct a, b; cbn; congruence. Qed.

Lemma py_le_is_number_l (a b : pyval) :
  is_number b = true -> py_le a b = Ok true -> is_number a = true.
Proof. destruct a, b; cbn; congruence. Qed.

Lemma py_le_not_gt (a b : pyval) :
  is_number a = true -> py_le a b = Ok true -> py_gt a b = Ok false.
Proof.
  intros Ha Hle. pose proof (py_le_is_number a b Ha Hle) as Hb.
  unfold py_gt, py_le, py_lt in *.
  destruct a, b; try discriminate; cbn [real_value] in *;
    injection Hle as Hle; f_equal; now apply xreal_leb_not_gt.
Qed.

Lemma py_le_not_lt (a b : pyval) :
  is_number a = true -> py_le a b = Ok true -> py_lt b a = Ok false.
Proof. apply py_le_not_gt. Qed.

(** Two numbers are always ordered, one way or the other. *)
Lemma py_lt_numbers (a b : pyval) :
  is_number a = true -> is_number b = true ->
  exists r : bool, py_lt a b = Ok r.
Proof. destruct a, b; try discriminate; intros _ _; cbn; eauto. Qed.

(** A number between two integers converts to an integer. *)
Lemma py_int_between (lo hi : Z) (v : pyval) :
  py_le (VInt lo) v = Ok true -> py_le v (VInt hi) = Ok true ->
  exists n : Z, py_int v = Ok n.
Proof.
  destruct v as [|b|z|f|s]; cbn; try discriminate; eauto.
  destruct (float_xreal f) as [|sf|m e]; cbn; eauto; try discriminate.
  destruct sf; discriminate.
Qed.

End comparisons.

(** ** Camera: width and height without a producer *)

Section camera_size.
Import Camera.

(** What [__setWidth] and [__setHeight] do once the value has passed
    their tests and no producer exists: the feature is assigned, and the
    call on [self.__thread], which is [None], raises. *)
Lemma size_setter_without_thread (k : string) (c : t) (n : Z)
    (method : M CameraDataThread.t unit) :
  __thread c = None ->
  (feature_assign k (VInt n);; on_thread method;; ret true) c
  = (Raise AttributeError,
     set_features (<[k := VInt n]> (__features c)) c).
Proof.
  intros Hth. unfold feature_assign, on_thread, dict_setitem. run_m.
  cbn. now rewrite Hth.
Qed.

(** C10: with no producer, [set('width', v)] and [set('height', v)] for a
    number [v] from 100 to 1000 raise, and by then the feature holds the
    new value [int(v)]: the failed call has changed the stored feature. *)
Theorem failed_size_setter_changes_feature (c : t) (v : pyval) :
  __thread c = None ->
  py_le (VInt 100) v = Ok true ->
  py_le v (VInt 1000) = Ok true ->
  exists n : Z,
    py_int v = Ok n
    /\ set "width" v c
       = (Raise AttributeError,
          set_features (<["width" := VInt n]> (__features c)) c)
    /\ set "height" v c
       = (Raise AttributeError,
          set_features (<["height" := VInt n]> (__features c)) c).
Proof.
  intros Hth Hlo Hhi.
  destruct (py_int_between 100 1000 v Hlo Hhi) as [n Hn].
  assert (Hnum : is_number v = true)
    by (eapply py_le_is_number; [|exact Hlo]; reflexivity).
  pose proof (py_le_not_lt (VInt 100) v eq_refl Hlo) as Hlt.
  pose proof (py_le_not_gt v (VInt 1000) Hnum Hhi) as Hgt.
  exists n. split; [exact Hn|]. split.
  - change (set "width" v) with (__setWidth v). unfold __setWidth.
    rewrite Hnum. cbn [negb]. run_m. rewrite Hlt, Hgt, Hn.
    now apply size_setter_without_thread.
  - change (set "height" v) with (__setHeight v). unfold __setHeight.
    rewrite Hnum. cbn [negb]. run_m. rewrite Hlt, Hgt, Hn.
    now apply size_setter_without_thread.
Qed.

Lemma failed_size_setter_changes_feature_witness :
  __thread init = None /\
  py_le (VInt 100) (VFloat 800.5) = Ok true /\
  py_le (VFloat 800.5) (VInt 1000) = Ok true /\
  exists n : Z,
    py_int (VFloat 800.5) = Ok n
    /\ set "width" (VFloat 800.5) init
       = (Raise AttributeError,
          set_features (<["width" := VInt n]> (__features init)) init)
    /\ set "height" (VFloat 800.5) init
       = (Raise AttributeError,
          set_features (<["height" := VInt n]> (__features init)) init).
Proof.
  split; [reflexivity|]. split; [reflexivity|]. split; [reflexivity|].
  apply failed_size_setter_changes_feature; reflexivity.
Defined.

(** C3 (the code departs from it): on a camera just created,
    [set('width', 800)] and [set('height', 600)] raise [AttributeError],
    since [__setWidth] and [__setHeight] do not create the producer;
    [set('framerate', 10)] and [set('exposuretime', 2)] on the same
    camera create it and return [True]. *)
Theorem size_setters_raise_on_new_camera :
  set "width" (VInt 800) init
  = (Raise AttributeError,
     set_features (<["width" := VInt 800]> (__features init)) init)
  /\ set "height" (VInt 600) init
     = (Raise AttributeError,
        set_features (<["height" := VInt 600]> (__features init)) init)
  /\ fst (set "framerate" (VInt 10) init) = Ok true
  /\ fst (set "exposuretime" (VInt 2) init) = Ok true
  /\ __thread (snd (set "framerate" (VInt 10) init)) <> None
  /\ __thread (snd (set "exposuretime" (VInt 2) init)) <> None.
Proof. repeat split; try reflexivity; discriminate. Qed.

End camera_size.

(** ** Camera: the frame rate *)

Section camera_framerate.
Import Camera.

Lemma setFrameRate_rejects (c : t) (v : pyval) :
  is_number v = false
  \/ py_lt v (VFloat 1) = Ok true
  \/ py_gt v (VFloat 50) = Ok true ->
  __setFrameRate v c = (Ok false, c).
Proof.
  intros H. unfold __setFrameRate.
  destruct (is_number v) eqn:Hnum; cbn [negb]; [|reflexivity].
  destruct (py_lt_numbers v (VFloat 1) Hnum eq_refl) as [below Hbelow].
  run_m. rewrite Hbelow. destruct below; [reflexivity|].
  destruct H as [H|[H|H]]; [discriminate | congruence |].
  now rewrite H.
Qed.

Lemma py_truediv_float (a d : float) :
  PrimFloat.eqb d 0 = false -> py_truediv a (VFloat d) = Ok (a / d)%float.
Proof. intros Hd. unfold py_truediv. cbn. now rewrite Hd. Qed.

(** A value that passes the tests of [__setFrameRate] is stored as a
    float. *)
Lemma setFrameRate_accepts (c : t) (v e : pyval) (f : float) :
  is_number v = true ->
  py_lt v (VFloat 1) = Ok false ->
  py_gt v (VFloat 50) = Ok false ->
  py_float v = Ok f ->
  PrimFloat.eqb f 0 = false ->
  __features c !! "exposuretime" = Some e ->
  is_number e = true ->
  exists c' : t,
    __setFrameRate v c = (Ok true, c')
    /\ __features c' !! "framerate" = Some (VFloat f).
Proof.
  intros Hnum Hlt Hgt Hf Hf0 He Henum. unfold __setFrameRate.
  rewrite Hnum. cbn [negb]. run_m. rewrite Hlt, Hgt, Hf.
  unfold feature_assign, __adjustExposureTime, feature, dict_setitem,
    dict_getitem. run_m.
  rewrite py_truediv_float by assumption.
  unfold set_features, set_thread. cbn [__features __buffer __thread].
  rewrite lookup_insert_ne, He by done.
  destruct (py_lt_numbers (VFloat (1000 / f)) e eq_refl Henum) as [b Hb].
  unfold py_min. rewrite Hb.
  cbn [__features __buffer __thread].
  set (e' := if b then VFloat (1000 / f)%float else e).
  set (d' := <["exposuretime" := e']>
               (<["framerate" := VFloat f]> (__features c))).
  assert (Hcreate : exists th, __createThread (mk d' (__buffer c) (__thread c))
                               = (Ok tt, mk d' (__buffer c) (Some th))).
  { unfold __createThread. run_m. cbn. destruct (__thread c) as [th|]; eauto. }
  destruct Hcreate as [th ->].
  unfold call_thread. run_m. cbn [__features __buffer __thread].
  unfold d' at 1. rewrite lookup_insert_ne, lookup_insert_eq by done.
  unfold on_thread, CameraDataThread.setFrameRate,
    CameraDataThread.setExposureTime, set_thread. run_m.
  cbn [__features __buffer __thread].
  rewrite py_truediv_float by assumption.
  cbn [__features __buffer __thread].
  unfold d' at 1. rewrite lookup_insert_eq.
  cbn [__features __buffer __thread].
  eexists. split; [reflexivity|]. cbn [__features].
  unfold d'. now rewrite lookup_insert_ne, lookup_insert_eq by done.
Qed.

(** C8: [set('framerate', v)] returns [False] and changes nothing, so
    [get('framerate')] reads what it read before, whenever [v] is not a
    number, or is below 1.0, or above 50.0, as are 0.5 and 51;
    [set('framerate', 10)] returns [True], and [get('framerate')] then
    returns the float 10.0.  The last part is for a camera whose stored
    exposure time is a number, which [__adjustExposureTime] compares with
    the frame time; it is one from [Camera()] on. *)
Theorem setFrameRate_validates (c : t) :
  (forall v : pyval,
      is_number v = false
      \/ py_lt v (VFloat 1) = Ok true
      \/ py_gt v (VFloat 50) = Ok true ->
      set "framerate" v c = (Ok false, c))
  /\ set "framerate" (VFloat 0.5) c = (Ok false, c)
  /\ set "framerate" (VInt 51) c = (Ok false, c)
  /\ (forall e : pyval,
        __features c !! "exposuretime" = Some e ->
        is_number e = true ->
        exists c' : t,
          set "framerate" (VInt 10) c = (Ok true, c')
          /\ get "framerate" c' = (Ok (VFloat 10), c')).
Proof.
  change (set "framerate") with __setFrameRate.
  split; [|split; [|split]].
  - intros v Hv. now apply setFrameRate_rejects.
  - apply setFrameRate_rejects. right; left. reflexivity.
  - apply setFrameRate_rejects. right; right. reflexivity.
  - intros e He Henum.
    destruct (setFrameRate_accepts c (VInt 10) e 10%float)
      as (c' & Hset & Hget); try reflexivity; try assumption.
    exists c'. split; [exact Hset|].
    change (get "framerate") with (feature "framerate").
    unfold feature, dict_getitem. run_m. now rewrite Hget.
Qed.

(** On a new camera: 0.5 and 51 are refused, 10 is stored as 10.0. *)
Lemma setFrameRate_validates_witness :
  set "framerate" (VFloat 0.5) init = (Ok false, init) /\
  set "framerate" (VInt 51) init = (Ok false, init) /\
  exists c' : t,
    set "framerate" (VInt 10) init = (Ok true, c')
    /\ get "framerate" c' = (Ok (VFloat 10), c').
Proof.
  destruct (setFrameRate_validates init) as (_ & Hlow & Hhigh & Hten).
  split; [exact Hlow|]. split; [exact Hhigh|].
  apply (Hten (VInt 1)); reflexivity.
Defined.

End camera_framerate.

(** ** RingBuffer: what the reader finds between the two indices *)

Section ring_buffer_window.
Import RingBuffer.

Lemma readable_cases (r : t) :
  well_formed r ->
  readable r =
    if decide (__read_index r <= __write_index r)
    then __write_index r - __read_index r
    else __write_index r - __read_index r + __size r.
Proof.
  intros (Hsz & _ & Hwi & Hri). unfold readable.
  destruct (decide _).
  - apply Z.mod_small. lia.
  - symmetry. apply (Z.mod_unique_pos _ _ (-1)); lia.
Qed.

Lemma window_written_init (sz : Z) : window_written (init sz).
Proof. intros i Hi. unfold in_window, init in Hi; cbn in Hi. lia. Qed.

Lemma window_written_push (sz : Z) (f : Frame) (r r' : t) :
  invariant sz r -> window_written r ->
  push f r = (Ok tt, r') -> window_written r'.
Proof.
  intros Hinv Hwin Hpush.
  destruct (Z.le_gt_cases sz 0) as [Hle|Hpos].
  { now destruct (push_no_slot f r r' sz). }
  pose proof (invariant_well_formed sz r Hinv Hpos) as Hwf.
  rewrite (push_well_formed f r Hwf) in Hpush. injection Hpush as <-.
  destruct Hwf as (Hsz & Hlen & Hwi & Hri).
  intros i Hi. unfold in_window in Hi; cbn in Hi |- *.
  rewrite succ_mod in Hi by lia.
  destruct (decide (i = __write_index r)) as [->|Hne].
  - exists f. apply list_lookup_insert_eq. lia.
  - rewrite list_lookup_insert_ne by lia.
    apply Hwin. unfold in_window.
    destruct (decide (__write_index r + 1 = __size r)); lia.
Qed.

Lemma window_written_pop (sz : Z) (o : option Frame) (r r' : t) :
  invariant sz r -> window_written r ->
  pop r = (Ok o, r') -> window_written r'.
Proof.
  intros Hinv Hwin Hpop.
  destruct (pop_guard r) eqn:Hg.
  { rewrite pop_guarded in Hpop by assumption. now injection Hpop as _ <-. }
  pose proof Hinv as (Hsz & Hlen & Hwi & Hri & Hcnt & k & Hk).
  pose proof Hg as Hg'. unfold pop_guard in Hg'.
  apply orb_false_elim in Hg' as [_ Hne]. apply Z.eqb_neq in Hne.
  assert (Hpos : 0 < sz) by lia.
  pose proof (invariant_well_formed sz r Hinv Hpos) as Hwf.
  destruct (lookup_lt_is_Some_2 (__frames r) (Z.to_nat (__read_index r)))
    as [x Hx]; [lia|].
  rewrite (pop_well_formed r x Hwf Hg Hx) in Hpop. injection Hpop as _ <-.
  intros i Hi. unfold in_window in Hi; cbn in Hi |- *.
  rewrite Hsz, succ_mod in Hi by lia.
  apply Hwin. unfold in_window. rewrite Hsz.
  destruct (decide (__read_index r + 1 = sz)); lia.
Qed.

Lemma window_written_sync (r r' : t) :
  sync r = (Ok tt, r') -> window_written r'.
Proof.
  rewrite sync_run. intros H. injection H as <-.
  intros i Hi. unfold in_window in Hi; cbn in Hi. lia.
Qed.

Lemma reachable_window_written (sz : Z) (r : t) :
  reachable sz r -> window_written r.
Proof.
  induction 1 as [|r r' Hr IH Hstep]; [apply window_written_init|].
  apply reachable_invariant in Hr.
  destruct Hstep as [f Hpush | o Hpop | Hsync];
    eauto using window_written_push, window_written_pop, window_written_sync.
Qed.

End ring_buffer_window.

(** ** RingBuffer: further properties of the reachable states *)

Section ring_buffer_more.
Import RingBuffer.

Lemma reachable_pop (sz : Z) (r r' : t) (o : option Frame) :
  reachable sz r -> pop r = (Ok o, r') -> reachable sz r'.
Proof. intros Hr Hpop. eapply reachable_step; eauto using step_pop. Qed.

(** In a reachable state with the indices apart, [pop] returns the frame
    of the slot at the read index and moves on by one. *)
Lemma pop_reachable_apart (sz : Z) (r : t) :
  reachable sz r ->
  __read_index r <> __write_index r ->
  exists f : Frame,
    __frames r !! Z.to_nat (__read_index r) = Some (Some f)
    /\ pop r =
         (Ok (Some f),
          mk (__size r) (__frames r) (__write_index r)
             ((__read_index r + 1) mod __size r)
             (__write_count r) (__read_count r + 1)).
Proof.
  intros Hr Hne.
  pose proof (reachable_invariant sz r Hr) as Hinv.
  pose proof (reachable_window_written sz r Hr) as Hwin.
  pose proof Hinv as (Hsz & Hlen & Hwi & Hri & Hcnt & k & Hk).
  assert (Hpos : 0 < sz) by lia.
  pose proof (invariant_well_formed sz r Hinv Hpos) as Hwf.
  destruct (Hwin (__read_index r)) as [f Hf].
  { unfold in_window. lia. }
  exists f. split; [exact Hf|].
  apply pop_well_formed; [assumption | | assumption].
  unfold pop_guard. apply orb_false_intro; lia.
Qed.

Lemma pop_reachable_together (r : t) :
  __read_index r = __write_index r -> pop r = (Ok None, r).
Proof.
  intros Heq. apply pop_guarded. unfold pop_guard.
  apply orb_true_intro. right. now apply Z.eqb_eq.
Qed.

Lemma readable_zero (r : t) :
  well_formed r ->
  (readable r = 0 <-> __read_index r = __write_index r).
Proof.
  intros Hwf. rewrite readable_cases by assumption.
  destruct Hwf as (Hsz & _ & Hwi & Hri). destruct (decide _); lia.
Qed.

Lemma readable_after_pop (r : t) :
  well_formed r ->
  __read_index r <> __write_index r ->
  readable (mk (__size r) (__frames r) (__write_index r)
               ((__read_index r + 1) mod __size r)
               (__write_count r) (__read_count r + 1))
  = readable r - 1.
Proof.
  intros Hwf Hne. pose proof Hwf as (Hsz & Hlen & Hwi & Hri).
  rewrite !readable_cases; cbn;
    [ | assumption
      | unfold well_formed; cbn; pose proof (Z.mod_pos_bound
          (__read_index r + 1) (__size r) Hsz); lia ].
  rewrite succ_mod by lia.
  repeat destruct (decide _); lia.
Qed.

(** [m] pops from a reachable state return as many frames as there are
    slots from the read index up to the write index, and [None] after
    them. *)
Lemma pop_n_reachable (sz : Z) (m : nat) (r : t) :
  reachable sz r -> 0 < sz ->
  exists fs : list Frame,
    fst (pop_n m r) = Ok ((Some <$> fs) ++ replicate (m - length fs) None)
    /\ length fs = Nat.min m (Z.to_nat (readable r)).
Proof.
  intros Hr Hpos. revert r Hr. induction m as [|m IH]; intros r Hr.
  { exists []. split; reflexivity. }
  pose proof (invariant_well_formed sz r (reachable_invariant sz r Hr) Hpos)
    as Hwf.
  cbn [pop_n]. run_m.
  destruct (decide (__read_index r = __write_index r)) as [Heq|Hne].
  - rewrite pop_reachable_together by assumption.
    destruct (IH r Hr) as (fs & Hrun & Hlen).
    apply (readable_zero r Hwf) in Heq. rewrite Heq in Hlen |- *.
    rewrite Nat.min_0_r in Hlen. destruct fs; [|discriminate].
    destruct (pop_n m r) as [[xs|e] r1]; cbn in Hrun; [|discriminate].
    injection Hrun as ->. exists []. split; [|reflexivity].
    cbn. now rewrite Nat.sub_0_r.
  - destruct (pop_reachable_apart sz r Hr Hne) as (f & _ & Hpop).
    rewrite Hpop.
    assert (Hr' : reachable sz (mk (__size r) (__frames r) (__write_index r)
                                   ((__read_index r + 1) mod __size r)
                                   (__write_count r) (__read_count r + 1)))
      by (eapply reachable_pop; eauto).
    destruct (IH _ Hr') as (fs & Hrun & Hlen).
    rewrite readable_after_pop in Hlen by assumption.
    match goal with |- context [pop_n m ?r1] =>
      destruct (pop_n m r1) as [[xs|e] r2] end;
      cbn in Hrun; [|discriminate].
    injection Hrun as ->. exists (f :: fs). split; [reflexivity|].
    cbn [length].
    assert (readable r <> 0) by (rewrite readable_zero; assumption).
    pose proof (Z.mod_pos_bound (__write_index r - __read_index r)
                                (__size r) ltac:(apply Hwf)) as Hb.
    fold (readable r) in Hb. lia.
Qed.

End ring_buffer_more.

Section ring_buffer_extras.
Import RingBuffer.

Lemma reachable_push_all (sz : Z) (fs : list Frame) (r r' : t) :
  reachable sz r -> push_all fs r = (Ok tt, r') -> reachable sz r'.
Proof.
  revert r. induction fs as [|f fs IH]; intros r Hr Hrun; cbn in Hrun.
  - run_m. now injection Hrun as <-.
  - run_m. destruct (push f r) as [[[]|e] r1] eqn:Hpush; [|discriminate].
    apply (IH r1); [|exact Hrun].
    eapply reachable_step; eauto using step_push.
Qed.

(** X1: below its capacity the buffer is a queue.  After [n < C] pushes
    into a buffer just created with [C] slots, [n] pops return the pushed
    frames, oldest first. *)
Theorem fifo_order_below_capacity (C : Z) (fs : list Frame) :
  Z.of_nat (length fs) < C ->
  fst ((push_all fs;; pop_n (length fs)) (init C)) = Ok (Some <$> fs).
Proof.
  intros Hn. rewrite pops_after_pushes by lia. cbn zeta.
  rewrite Z.mod_small, Nat2Z.id, Nat.sub_diag by lia.
  now rewrite drop_0, firstn_all, app_nil_r.
Qed.

Lemma fifo_order_below_capacity_witness :
  Z.of_nat (length [sample_frame 7; sample_frame 8]) < 3 /\
  fst ((push_all [sample_frame 7; sample_frame 8];; pop_n 2) (init 3))
  = Ok [Some (sample_frame 7); Some (sample_frame 8)].
Proof.
  split; [cbn; lia|].
  apply (fifo_order_below_capacity 3 [sample_frame 7; sample_frame 8]).
  cbn; lia.
Defined.

(** X2: whatever the number [n] of pushes into a buffer just created with
    [C] slots, the pops that follow return the last [n mod C] frames
    pushed, oldest first, and [None] from there on. *)
Theorem pops_return_newest_pushes (C : Z) (fs : list Frame) (m : nat) :
  0 < C ->
  fst ((push_all fs;; pop_n m) (init C)) =
    Ok ((Some <$> take m (drop (length fs
                                - Z.to_nat (Z.of_nat (length fs) mod C)) fs))
        ++ replicate (m - Z.to_nat (Z.of_nat (length fs) mod C)) None).
Proof. intros HC. now rewrite pops_after_pushes. Qed.

Lemma pops_return_newest_pushes_witness :
  0 < 2 /\
  fst ((push_all [sample_frame 1; sample_frame 2; sample_frame 3;
                  sample_frame 4; sample_frame 5];;
        pop_n 2) (init 2))
  = Ok [Some (sample_frame 5); None].
Proof.
  split; [lia|].
  apply (pops_return_newest_pushes
           2 [sample_frame 1; sample_frame 2; sample_frame 3;
              sample_frame 4; sample_frame 5] 2).
  lia.
Defined.

(** X3: on a buffer created with at least one slot, [push] and [pop]
    never raise, in any state the buffer can reach. *)
Theorem push_pop_never_raise (sz : Z) (r : t) (f : Frame) :
  0 < sz -> reachable sz r ->
  (exists r' : t, push f r = (Ok tt, r'))
  /\ (exists (o : option Frame) (r' : t), pop r = (Ok o, r')).
Proof.
  intros Hpos Hr.
  pose proof (invariant_well_formed sz r (reachable_invariant sz r Hr) Hpos)
    as Hwf.
  split.
  - eexists. now apply push_well_formed.
  - destruct (decide (__read_index r = __write_index r)) as [Heq|Hne].
    + exists None, r. now apply pop_reachable_together.
    + destruct (pop_reachable_apart sz r Hr Hne) as (x & _ & Hpop). eauto.
Qed.

Lemma push_pop_never_raise_witness :
  0 < 2 /\ reachable 2 (init 2) /\
  (exists r' : t, push (sample_frame 1) (init 2) = (Ok tt, r'))
  /\ (exists (o : option Frame) (r' : t), pop (init 2) = (Ok o, r')).
Proof.
  assert (H1 : 0 < 2) by lia.
  assert (H2 : reachable 2 (init 2)) by apply reachable_init.
  split; [exact H1|]. split; [exact H2|].
  exact (push_pop_never_raise 2 (init 2) (sample_frame 1) H1 H2).
Defined.



(** X5: in every reachable state, [pop] returns [None] exactly when the
    two indices coincide.  When they differ it returns a frame that was
    pushed, never the [None] of an unwritten slot; so the test
    [read_count > write_count] never decides. *)
Theorem pop_none_iff_indices_equal (sz : Z) (r : t) :
  reachable sz r ->
  (fst (pop r) = Ok None <-> __read_index r = __write_index r)
  /\ (__read_index r <> __write_index r ->
      exists f : Frame,
        __frames r !! Z.to_nat (__read_index r) = Some (Some f)
        /\ fst (pop r) = Ok (Some f)).
Proof.
  intros Hr. split.
  - split.
    + intros Hnone.
      destruct (decide (__read_index r = __write_index r)) as [Heq|Hne];
        [assumption|].
      destruct (pop_reachable_apart sz r Hr Hne) as (f & _ & Hpop).
      rewrite Hpop in Hnone. discriminate.
    + intros Heq. now rewrite pop_reachable_together.
  - intros Hne.
    destruct (pop_reachable_apart sz r Hr Hne) as (f & Hf & Hpop).
    exists f. split; [exact Hf|]. now rewrite Hpop.
Qed.

Lemma pop_none_iff_indices_equal_witness :
  reachable 2 (mk 2 [Some (sample_frame 1); None] 1 0 1 0) /\
  (__read_index (mk 2 [Some (sample_frame 1); None] 1 0 1 0)
   <> __write_index (mk 2 [Some (sample_frame 1); None] 1 0 1 0) ->
   exists f : Frame,
     __frames (mk 2 [Some (sample_frame 1); None] 1 0 1 0)
       !! Z.to_nat (__read_index (mk 2 [Some (sample_frame 1); None] 1 0 1 0))
     = Some (Some f)
     /\ fst (pop (mk 2 [Some (sample_frame 1); None] 1 0 1 0))
        = Ok (Some f)).
Proof.
  assert (H : reachable 2 (mk 2 [Some (sample_frame 1); None] 1 0 1 0)).
  { eapply reachable_step; [apply reachable_init|].
    apply (step_push _ _ (sample_frame 1)). reflexivity. }
  split; [exact H|].
  exact (proj2 (pop_none_iff_indices_equal 2 _ H)).
Defined.

(** X6: from a reachable state of a buffer with [sz] slots, the pops
    return as many frames as there are slots from the read index up to
    the write index, which is at most [sz - 1], and [None] after them. *)
Theorem pops_deliver_readable (sz : Z) (m : nat) (r : t) :
  0 < sz -> reachable sz r ->
  readable r <= sz - 1
  /\ exists fs : list Frame,
       fst (pop_n m r) = Ok ((Some <$> fs) ++ replicate (m - length fs) None)
       /\ length fs = Nat.min m (Z.to_nat (readable r)).
Proof.
  intros Hpos Hr. split; [|now apply (pop_n_reachable sz)].
  destruct (reachable_invariant sz r Hr) as (Hsz & _).
  unfold readable. rewrite Hsz.
  pose proof (Z.mod_pos_bound (__write_index r - __read_index r) sz Hpos).
  lia.
Qed.

Lemma pops_deliver_readable_witness :
  0 < 2 /\ reachable 2 (mk 2 [Some (sample_frame 1); None] 1 0 1 0) /\
  readable (mk 2 [Some (sample_frame 1); None] 1 0 1 0) <= 2 - 1
  /\ exists fs : list Frame,
       fst (pop_n 3 (mk 2 [Some (sample_frame 1); None] 1 0 1 0))
       = Ok ((Some <$> fs) ++ replicate (3 - length fs) None)
       /\ length fs
          = Nat.min 3 (Z.to_nat
                         (readable
                            (mk 2 [Some (sample_frame 1); None] 1 0 1 0))).
Proof.
  assert (H1 : 0 < 2) by lia.
  assert (H2 : reachable 2 (mk 2 [Some (sample_frame 1); None] 1 0 1 0)).
  { eapply reachable_step; [apply reachable_init|].
    apply (step_push _ _ (sample_frame 1)). reflexivity. }
  split; [exact H1|]. split; [exact H2|].
  exact (pops_deliver_readable 2 3 _ H1 H2).
Defined.

(** X7: a buffer created with one slot never delivers a frame: in each
    of its reachable states every [pop] returns [None]. *)
Theorem one_slot_buffer_never_delivers (m : nat) (r : t) :
  reachable 1 r -> fst (pop_n m r) = Ok (replicate m None).
Proof.
  intros Hr.
  destruct (pop_n_reachable 1 m r Hr ltac:(lia)) as (fs & Hrun & Hlen).
  destruct (reachable_invariant 1 r Hr) as (Hsz & _).
  unfold readable in Hlen. rewrite Hsz, Z.mod_1_r in Hlen.
  rewrite Nat.min_0_r in Hlen. destruct fs; [|discriminate].
  rewrite Hrun. cbn. now rewrite Nat.sub_0_r.
Qed.

Lemma one_slot_buffer_never_delivers_witness :
  reachable 1 (mk 1 [Some (sample_frame 1)] 0 0 1 0) /\
  fst (pop_n 2 (mk 1 [Some (sample_frame 1)] 0 0 1 0)) = Ok [None; None].
Proof.
  assert (H : reachable 1 (mk 1 [Some (sample_frame 1)] 0 0 1 0)).
  { eapply reachable_step; [apply reachable_init|].
    apply (step_push _ _ (sample_frame 1)). reflexivity. }
  split; [exact H|].
  exact (one_slot_buffer_never_delivers 2 _ H).
Defined.

(** X8: on a buffer with at least two slots, in any reachable state,
    [sync()], then [push(f)], then [pop()] returns [f]: after a [sync] the
    reader gets the next frame written, whatever was pending. *)
Theorem sync_push_pop_returns_frame (sz : Z) (r : t) (f : Frame) :
  2 <= sz -> reachable sz r ->
  fst ((sync;; push f;; pop) r) = Ok (Some f).
Proof.
  intros Hsz Hr. run_m. rewrite sync_run.
  set (r1 := mk _ _ _ _ 0 0).
  assert (Hr1 : reachable sz r1).
  { eapply reachable_step; [exact Hr|]. apply step_sync, sync_run. }
  pose proof (reachable_invariant sz r1 Hr1) as Hinv1.
  pose proof (invariant_well_formed sz r1 Hinv1 ltac:(lia)) as Hwf1.
  rewrite (push_well_formed f r1 Hwf1).
  set (r2 := mk _ _ _ _ _ _).
  assert (Hr2 : reachable sz r2).
  { eapply reachable_step; [exact Hr1|].
    apply (step_push _ _ f), push_well_formed, Hwf1. }
  destruct Hinv1 as (Hsize & Hlen & Hwi & _).
  cbn in Hsize, Hlen, Hwi.
  assert (Hne : __read_index r2 <> __write_index r2).
  { cbn. rewrite Hsize, succ_mod by lia. destruct (decide _); lia. }
  destruct (pop_reachable_apart sz r2 Hr2 Hne) as (g & Hg & Hpop).
  rewrite Hpop. cbn in Hg |- *.
  rewrite list_lookup_insert_eq in Hg by lia. congruence.
Qed.

Lemma sync_push_pop_returns_frame_witness :
  2 <= 2 /\ reachable 2 (init 2) /\
  fst ((sync;; push (sample_frame 9);; pop) (init 2))
  = Ok (Some (sample_frame 9)).
Proof.
  assert (H1 : 2 <= 2) by lia.
  assert (H2 : reachable 2 (init 2)) by apply reachable_init.
  split; [exact H1|]. split; [exact H2|].
  exact (sync_push_pop_returns_frame 2 (init 2) (sample_frame 9) H1 H2).
Defined.

End ring_buffer_extras.

(** ** CameraDataThread: generated frames, and starting twice *)

Section thread_extras.
Import CameraDataThread.

Lemma generage_step (rand_value skip : Z) (th : t) :
  drawn 0 65535 rand_value ->
  drawn 0 5 skip ->
  - 2 ^ 63 <= int_value (__frame_number th) < 2 ^ 63 - 5 ->
  1 <= int_value (__generageFrameNumber rand_value skip th)
       - int_value (__frame_number th) <= 5.
Proof.
  unfold drawn. intros Hrand Hskip Hnum. unfold __generageFrameNumber.
  destruct (rand_value <? 650).
  - cbn [int_add int_value].
    rewrite (wrap64_in_range (1 + skip)) by lia.
    destruct (__frame_number th) as [z|z]; cbn in *;
      rewrite wrap64_in_range; lia.
  - destruct (__frame_number th) as [z|z]; cbn in *;
      [|rewrite wrap64_in_range]; lia.
Qed.

Lemma generateFrame_run
    (np_full : pyval -> pyval -> pyval -> result (list (list Z)))
    (rand_value skip : Z) (now : float) (th : t)
    (fill : pyval) (d : list (list Z)) :
  py_mul_100 (__exposure_time th) = Ok fill ->
  np_full (__height th) (__width th) fill = Ok d ->
  __generateFrame np_full rand_value skip now th =
    (Ok (mkFrame d (__generageFrameNumber rand_value skip th) now),
     set_frame_number (__generageFrameNumber rand_value skip th) th).
Proof.
  intros Hfill Hdata. unfold __generateFrame. run_m.
  now rewrite Hfill, Hdata.
Qed.

(** X9: as long as [numpy.full] builds the matrix and the numbers stay
    within [numpy.int64], [__generateFrame] called again and again makes
    frames whose numbers go up by 1 to 5 from each frame to the next,
    starting above the number the producer had; each frame carries the
    clock reading given for it, and the producer ends with the number of
    the last frame. *)
Theorem generated_frame_numbers_advance
    (np_full : pyval -> pyval -> pyval -> result (list (list Z)))
    (inputs : list (Z * Z * float)) (th : t)
    (fill : pyval) (d : list (list Z)) :
  py_mul_100 (__exposure_time th) = Ok fill ->
  np_full (__height th) (__width th) fill = Ok d ->
  Forall (fun i => drawn 0 65535 i.1.1 /\ drawn 0 5 i.1.2) inputs ->
  - 2 ^ 63 <= int_value (__frame_number th) ->
  int_value (__frame_number th) + 5 * Z.of_nat (length inputs) < 2 ^ 63 ->
  exists (frames : list Frame) (th' : t),
    generate_frames np_full inputs th = (Ok frames, th')
    /\ advancing (int_value (__frame_number th))
                 (int_value ∘ frame_number <$> frames)
    /\ timestamp <$> frames = snd <$> inputs
    /\ int_value (__frame_number th')
       = List.last (int_value (__frame_number th) ::
                    (int_value ∘ frame_number <$> frames))
                   0.
Proof.
  revert th. induction inputs as [|[[rv sk] now] inputs IH];
    intros th Hfill Hdata Hdraws Hlo Hhi.
  { exists [], th. repeat split. }
  apply Forall_cons in Hdraws as [[Hrv Hsk] Hdraws]. cbn in Hrv, Hsk.
  cbn [length] in Hhi.
  pose proof (generage_step rv sk th Hrv Hsk ltac:(lia)) as Hstep.
  set (n := __generageFrameNumber rv sk th) in *.
  destruct (IH (set_frame_number n th))
    as (frames & th' & Hrun & Hadv & Hts & Hlast);
    try assumption; cbn; try lia.
  exists (mkFrame d n now :: frames), th'.
  cbn [generate_frames]. run_m.
  rewrite (generateFrame_run np_full rv sk now th fill d Hfill Hdata).
  fold n. rewrite Hrun. cbn in Hadv, Hlast |- *.
  repeat split; try assumption; try lia.
  now rewrite Hts.
Qed.

Lemma generated_frame_numbers_advance_witness :
  exists (frames : list Frame) (th' : t),
    generate_frames (fun _ _ _ => Ok []) [(3, 4, 1%float); (700, 0, 2%float)]
                    init
    = (Ok frames, th')
    /\ advancing 1 (int_value ∘ frame_number <$> frames)
    /\ timestamp <$> frames = [1%float; 2%float]
    /\ int_value (__frame_number th')
       = List.last (1 :: (int_value ∘ frame_number <$> frames)) 0.
Proof.
  apply (generated_frame_numbers_advance
           (fun _ _ _ => Ok []) [(3, 4, 1%float); (700, 0, 2%float)] init
           (VFloat 100) []).
  - reflexivity.
  - reflexivity.
  - repeat constructor; cbn; lia.
  - cbn; lia.
  - cbn; lia.
Defined.



End thread_extras.

(** ** Camera: the values the setters accept *)

Section accepted_values.
Import Camera.

Lemma float_of_Z_small (z : Z) :
  1 <= z <= 50 ->
  PrimFloat.is_infinity (float_of_Z z) = false
  /\ PrimFloat.eqb (float_of_Z z) 0 = false.
Proof.
  intros Hz.
  assert (H : List.forallb
                (fun k => negb (PrimFloat.is_infinity (float_of_Z (Z.of_nat k)))
                          && negb (PrimFloat.eqb (float_of_Z (Z.of_nat k)) 0))
                (List.seq 1 50) = true) by (vm_compute; reflexivity).
  rewrite List.forallb_forall in H.
  assert (Hin : In (Z.to_nat z) (List.seq 1 50)) by (apply List.in_seq; lia).
  specialize (H _ Hin). rewrite Z2Nat.id in H by lia.
  apply andb_prop in H as [H1 H2].
  split; now apply negb_true_iff.
Qed.



(** A finite float that is not below a positive one is a positive finite
    float. *)
Lemma float_above_positive (f : float) (m0 : positive) (e0 : Z) :
  xreal_leb (XFin (Z.pos m0) e0) (float_xreal f) = true ->
  (exists (m : positive) (e : Z), Prim2SF f = S754_finite false m e)
  \/ Prim2SF f = S754_infinity false.
Proof.
  unfold float_xreal. destruct (Prim2SF f) as [s|s| |s m e]; cbn.
  - intros H. apply Z.leb_le in H.
    pose proof (Z.pow_pos_nonneg 2 (e0 - Z.min e0 0) ltac:(lia) ltac:(lia)).
    nia.
  - destruct s; [discriminate | now right].
  - discriminate.
  - destruct s; [|left; eauto].
    intros H. apply Z.leb_le in H.
    pose proof (Z.pow_pos_nonneg 2 (e0 - Z.min e0 e) ltac:(lia) ltac:(lia)).
    pose proof (Z.pow_pos_nonneg 2 (e - Z.min e0 e) ltac:(lia) ltac:(lia)).
    nia.
Qed.

Lemma float_one_xreal : float_xreal 1 = XFin 4503599627370496 (-52).
Proof. reflexivity. Qed.

Lemma float_fifty_xreal : float_xreal 50 = XFin 7036874417766400 (-47).
Proof. reflexivity. Qed.

(** A number from 1.0 to 50.0 converts to a float that is not zero. *)
Lemma framerate_in_range (v : pyval) :
  py_le (VFloat 1) v = Ok true ->
  py_le v (VFloat 50) = Ok true ->
  exists f : float, py_float v = Ok f /\ PrimFloat.eqb f 0 = false.
Proof.
  intros Hlo Hhi. destruct v as [|b|z|f|s]; try discriminate.
  - destruct b; [|discriminate]. exists 1%float. split; reflexivity.
  - unfold py_le in Hlo, Hhi. cbn [real_value] in Hlo, Hhi.
    rewrite float_one_xreal in Hlo. rewrite float_fifty_xreal in Hhi.
    injection Hlo as Hlo. injection Hhi as Hhi.
    cbn in Hlo, Hhi. apply Z.leb_le in Hlo, Hhi.
    change (2 ^ (-52 - Z.min (-52) 0)) with 1 in Hlo.
    change (2 ^ (0 - Z.min (-52) 0)) with 4503599627370496 in Hlo.
    change (2 ^ (0 - Z.min 0 (-47))) with 140737488355328 in Hhi.
    change (2 ^ (-47 - Z.min 0 (-47))) with 1 in Hhi.
    destruct (float_of_Z_small z ltac:(lia)) as [Hinf Hzero].
    exists (float_of_Z z). unfold py_float. now rewrite Hinf.
  - exists f. split; [reflexivity|].
    unfold py_le in Hlo, Hhi. cbn [real_value] in Hlo, Hhi.
    rewrite float_one_xreal in Hlo. injection Hlo as Hlo.
    injection Hhi as Hhi.
    destruct (float_above_positive f _ _ Hlo) as [(m & e & HP)|HP].
    + rewrite FloatAxioms.eqb_spec, HP. reflexivity.
    + unfold float_xreal in Hhi. rewrite HP in Hhi. discriminate.
Qed.

End accepted_values.

(** ** Camera: what the accepted values become *)

Section camera_setters.
Import Camera.

Lemma createThread_run (c : t) :
  __createThread c = (Ok tt, set_thread (Some (producer c)) c).
Proof.
  unfold __createThread, producer. run_m.
  destruct c as [d b [th|]]; reflexivity.
Qed.

(** The camera after [__setFrameRate] has accepted a value. *)
Lemma setFrameRate_state (c : t) (v e : pyval) (f : float) (b : bool) :
  is_number v = true ->
  py_lt v (VFloat 1) = Ok false ->
  py_gt v (VFloat 50) = Ok false ->
  py_float v = Ok f ->
  PrimFloat.eqb f 0 = false ->
  __features c !! "exposuretime" = Some e ->
  py_lt (VFloat (1000 / f)) e = Ok b ->
  let e' := if b then VFloat (1000 / f)%float else e in
  __setFrameRate v c =
    (Ok true,
     mk (<["exposuretime" := e']>
           (<["framerate" := VFloat f]> (__features c)))
        (__buffer c)
        (Some (CameraDataThread.set_exposure_time e'
                 (CameraDataThread.set_frame_time_sec (1 / f)
                    (producer c))))).
Proof.
  intros Hnum Hlt Hgt Hf Hf0 He Hb e'. unfold __setFrameRate.
  rewrite Hnum. cbn [negb]. run_m. rewrite Hlt, Hgt, Hf.
  unfold feature_assign, __adjustExposureTime, feature, dict_setitem,
    dict_getitem. run_m.
  rewrite py_truediv_float by assumption.
  unfold set_features. cbn [__features __buffer __thread].
  rewrite lookup_insert_ne, He by done.
  unfold py_min. rewrite Hb. fold e'.
  cbn [__features __buffer __thread].
  rewrite createThread_run.
  unfold call_thread, on_thread, set_thread, producer,
    CameraDataThread.setFrameRate, CameraDataThread.setExposureTime. run_m.
  cbn [__features __buffer __thread].
  rewrite lookup_insert_ne, lookup_insert_eq by done.
  cbn [__features __buffer __thread].
  rewrite py_truediv_float by assumption.
  cbn [__features __buffer __thread].
  rewrite lookup_insert_eq.
  cbn [__features __buffer __thread]. reflexivity.
Qed.

(** X11: [set('framerate', v)] accepts every number from 1.0 to 50.0,
    whatever its type: it returns [True], [get('framerate')] then returns
    [float(v)], the producer exists and has [1.0 / float(v)] as its frame
    time, and the buffer is as it was.  The camera is any whose stored
    exposure time is a number. *)
Theorem framerate_in_range_is_stored (c : t) (v e : pyval) :
  py_le (VFloat 1) v = Ok true ->
  py_le v (VFloat 50) = Ok true ->
  __features c !! "exposuretime" = Some e ->
  is_number e = true ->
  exists (f : float) (c' : t) (th : CameraDataThread.t),
    py_float v = Ok f
    /\ set "framerate" v c = (Ok true, c')
    /\ get "framerate" c' = (Ok (VFloat f), c')
    /\ __thread c' = Some th
    /\ CameraDataThread.__frame_time_sec th = (1 / f)%float
    /\ __buffer c' = __buffer c.
Proof.
  intros Hlo Hhi He Henum.
  destruct (framerate_in_range v Hlo Hhi) as (f & Hf & Hf0).
  assert (Hnum : is_number v = true)
    by (eapply py_le_is_number; [|exact Hlo]; reflexivity).
  pose proof (py_le_not_lt (VFloat 1) v eq_refl Hlo) as Hlt.
  pose proof (py_le_not_gt v (VFloat 50) Hnum Hhi) as Hgt.
  destruct (py_lt_numbers (VFloat (1000 / f)) e eq_refl Henum) as [b Hb].
  change (set "framerate" v) with (__setFrameRate v).
  rewrite (setFrameRate_state c v e f b) by assumption.
  eexists f, _, _. repeat split; try reflexivity; try assumption.
  change (get "framerate") with (feature "framerate").
  unfold feature, dict_getitem. run_m. cbn [__features].
  now rewrite lookup_insert_ne, lookup_insert_eq by done.
Qed.

Lemma framerate_in_range_is_stored_witness :
  exists (f : float) (c' : t) (th : CameraDataThread.t),
    py_float (VFloat 12.5) = Ok f
    /\ set "framerate" (VFloat 12.5) init = (Ok true, c')
    /\ get "framerate" c' = (Ok (VFloat f), c')
    /\ __thread c' = Some th
    /\ CameraDataThread.__frame_time_sec th = (1 / f)%float
    /\ __buffer c' = __buffer init.
Proof.
  apply (framerate_in_range_is_stored init (VFloat 12.5) (VInt 1));
    reflexivity.
Defined.



End camera_setters.

Section camera_setters_more.
Import Camera.

Lemma setExposureTime_rejects (c : t) (v : pyval) :
  is_number v = false
  \/ py_lt v (VFloat 0.1) = Ok true
  \/ py_gt v (VFloat 30) = Ok true ->
  __setExposureTime v c = (Ok false, c).
Proof.
  intros H. unfold __setExposureTime.
  destruct (is_number v) eqn:Hnum; cbn [negb]; [|reflexivity].
  destruct (py_lt_numbers v (VFloat 0.1) Hnum eq_refl) as [below Hbelow].
  run_m. rewrite Hbelow. destruct below; [reflexivity|].
  destruct H as [H|[H|H]]; [discriminate | congruence |].
  now rewrite H.
Qed.

Lemma setExposureTime_state (c : t) (v : pyval) (f : float) :
  is_number v = true ->
  py_lt v (VFloat 0.1) = Ok false ->
  py_gt v (VFloat 30) = Ok false ->
  py_float v = Ok f ->
  __setExposureTime v c =
    (Ok true,
     mk (<["exposuretime" := VFloat f]> (__features c)) (__buffer c)
        (Some (CameraDataThread.set_exposure_time (VFloat f) (producer c)))).
Proof.
  intros Hnum Hlt Hgt Hf. unfold __setExposureTime.
  rewrite Hnum. cbn [negb]. run_m. rewrite Hlt, Hgt, Hf.
  unfold feature_assign, dict_setitem. run_m.
  rewrite createThread_run. reflexivity.
Qed.

Lemma float_tenth_xreal : float_xreal 0.1 = XFin 7205759403792794 (-56).
Proof. reflexivity. Qed.

Lemma float_thirty_xreal : float_xreal 30 = XFin 8444249301319680 (-48).
Proof. reflexivity. Qed.

(** A number from 0.1 to 30.0 converts to a float. *)
Lemma exposure_in_range (v : pyval) :
  py_le (VFloat 0.1) v = Ok true ->
  py_le v (VFloat 30) = Ok true ->
  exists f : float, py_float v = Ok f.
Proof.
  intros Hlo Hhi.
  destruct v as [|b|z|f|s]; try discriminate;
    [eexists; reflexivity | | eexists; reflexivity].
  unfold py_le in Hlo, Hhi. cbn [real_value] in Hlo, Hhi.
  rewrite float_tenth_xreal in Hlo. rewrite float_thirty_xreal in Hhi.
  injection Hlo as Hlo. injection Hhi as Hhi.
  cbn in Hlo, Hhi. apply Z.leb_le in Hlo, Hhi.
  change (2 ^ (-56 - Z.min (-56) 0)) with 1 in Hlo.
  change (2 ^ (0 - Z.min (-56) 0)) with 72057594037927936 in Hlo.
  change (2 ^ (0 - Z.min 0 (-48))) with 281474976710656 in Hhi.
  change (2 ^ (-48 - Z.min 0 (-48))) with 1 in Hhi.
  destruct (float_of_Z_small z ltac:(lia)) as [Hinf _].
  unfold py_float. rewrite Hinf. eauto.
Qed.

(** X13: [set('exposuretime', v)] returns [False] and changes nothing when
    [v] is not a number, or is below 0.1, or above 30.0.  For every number
    from 0.1 to 30.0 it returns [True], stores [float(v)], creates the
    producer if there is none and gives it the same value; the frame rate
    and the buffer stay as they were. *)
Theorem setExposureTime_validates (c : t) (v : pyval) :
  (is_number v = false
   \/ py_lt v (VFloat 0.1) = Ok true
   \/ py_gt v (VFloat 30) = Ok true ->
   set "exposuretime" v c = (Ok false, c))
  /\ (py_le (VFloat 0.1) v = Ok true ->
      py_le v (VFloat 30) = Ok true ->
      exists f : float,
        py_float v = Ok f
        /\ set "exposuretime" v c =
             (Ok true,
              mk (<["exposuretime" := VFloat f]> (__features c))
                 (__buffer c)
                 (Some (CameraDataThread.set_exposure_time (VFloat f)
                          (producer c))))).
Proof.
  change (set "exposuretime" v) with (__setExposureTime v). split.
  - apply setExposureTime_rejects.
  - intros Hlo Hhi. destruct (exposure_in_range v Hlo Hhi) as [f Hf].
    assert (Hnum : is_number v = true)
      by (eapply py_le_is_number; [|exact Hlo]; reflexivity).
    exists f. split; [exact Hf|].
    apply setExposureTime_state; try assumption.
    + now apply (py_le_not_lt (VFloat 0.1) v).
    + now apply py_le_not_gt.
Qed.

Lemma setExposureTime_validates_witness :
  set "exposuretime" (VInt 31) init = (Ok false, init)
  /\ exists f : float,
       py_float (VInt 2) = Ok f
       /\ set "exposuretime" (VInt 2) init =
            (Ok true,
             mk (<["exposuretime" := VFloat f]> (__features init))
                (__buffer init)
                (Some (CameraDataThread.set_exposure_time (VFloat f)
                         (producer init)))).
Proof.
  destruct (setExposureTime_validates init (VInt 31)) as [Hrej _].
  destruct (setExposureTime_validates init (VInt 2)) as [_ Hacc].
  split.
  - apply Hrej. right; right. reflexivity.
  - apply Hacc; reflexivity.
Defined.

(** A number from 100 to 1000 converts to an integer from 100 to 1000. *)
Lemma size_in_range (v : pyval) :
  py_le (VInt 100) v = Ok true ->
  py_le v (VInt 1000) = Ok true ->
  exists n : Z, py_int v = Ok n /\ 100 <= n <= 1000.
Proof.
  intros Hlo Hhi. destruct v as [|b|z|f|s]; try discriminate.
  - destruct b; discriminate.
  - injection Hlo as Hlo. injection Hhi as Hhi. cbn in Hlo, Hhi.
    change (2 ^ (0 - Z.min 0 0)) with 1 in Hlo, Hhi.
    apply Z.leb_le in Hlo, Hhi. exists z. split; [reflexivity | lia].
  - unfold py_le in Hlo, Hhi. cbn [real_value] in Hlo, Hhi.
    injection Hlo as Hlo. injection Hhi as Hhi. unfold py_int.
    destruct (float_xreal f) as [|sf|m e]; try discriminate.
    { destruct sf; discriminate. }
    cbn in Hlo, Hhi. apply Z.leb_le in Hlo, Hhi.
    eexists. split; [reflexivity|].
    destruct (Z.leb_spec 0 e) as [He|He].
    + replace (0 - Z.min 0 e) with 0 in Hlo by lia.
      replace (e - Z.min 0 e) with e in Hlo by lia.
      replace (0 - Z.min e 0) with 0 in Hhi by lia.
      replace (e - Z.min e 0) with e in Hhi by lia.
      change (2 ^ 0) with 1 in Hlo, Hhi. lia.
    + replace (0 - Z.min 0 e) with (- e) in Hlo by lia.
      replace (e - Z.min 0 e) with 0 in Hlo by lia.
      replace (0 - Z.min e 0) with (- e) in Hhi by lia.
      replace (e - Z.min e 0) with 0 in Hhi by lia.
      pose proof (Z.pow_pos_nonneg 2 (- e) ltac:(lia) ltac:(lia)) as Hp.
      change (2 ^ 0) with 1 in Hlo, Hhi.
      rewrite Z.quot_div_nonneg by lia. split.
      * apply Z.div_le_lower_bound; lia.
      * apply Z.div_le_upper_bound; lia.
Qed.

Lemma size_setter_with_thread (k : string) (c : t) (n : Z)
    (th : CameraDataThread.t) (update : pyval -> CameraDataThread.t ->
                                        CameraDataThread.t) :
  __thread c = Some th ->
  (feature_assign k (VInt n);;
   on_thread (modify (update (VInt n)));;
   ret true) c
  = (Ok true,
     mk (<[k := VInt n]> (__features c)) (__buffer c)
        (Some (update (VInt n) th))).
Proof.
  intros Hth. unfold feature_assign, on_thread, dict_setitem. run_m.
  cbn. now rewrite Hth.
Qed.

(** X14: on a camera that has a producer, [set('width', v)] and
    [set('height', v)] accept every number from 100 to 1000: they return
    [True], and store and hand to the producer [int(v)], an integer from
    100 to 1000, a float being cut to its integer part.  They return
    [False] and change nothing when [v] is not a number, or is below 100,
    or above 1000, with or without a producer. *)
Theorem size_setters_validate (c : t) (v : pyval) :
  (is_number v = false
   \/ py_lt v (VInt 100) = Ok true
   \/ py_gt v (VInt 1000) = Ok true ->
   set "width" v c = (Ok false, c) /\ set "height" v c = (Ok false, c))
  /\ (forall th : CameraDataThread.t,
        __thread c = Some th ->
        py_le (VInt 100) v = Ok true ->
        py_le v (VInt 1000) = Ok true ->
        exists n : Z,
          py_int v = Ok n /\ 100 <= n <= 1000
          /\ set "width" v c =
               (Ok true,
                mk (<["width" := VInt n]> (__features c)) (__buffer c)
                   (Some (CameraDataThread.set_width (VInt n) th)))
          /\ set "height" v c =
               (Ok true,
                mk (<["height" := VInt n]> (__features c)) (__buffer c)
                   (Some (CameraDataThread.set_height (VInt n) th)))).
Proof.
  change (set "width" v) with (__setWidth v).
  change (set "height" v) with (__setHeight v). split.
  - intros H. unfold __setWidth, __setHeight.
    destruct (is_number v) eqn:Hnum; cbn [negb]; [|split; reflexivity].
    destruct (py_lt_numbers v (VInt 100) Hnum eq_refl) as [below Hbelow].
    run_m. rewrite Hbelow. destruct below; [split; reflexivity|].
    destruct H as [H|[H|H]]; [discriminate | congruence |].
    rewrite H. split; reflexivity.
  - intros th Hth Hlo Hhi.
    destruct (size_in_range v Hlo Hhi) as (n & Hn & Hbounds).
    assert (Hnum : is_number v = true)
      by (eapply py_le_is_number; [|exact Hlo]; reflexivity).
    pose proof (py_le_not_lt (VInt 100) v eq_refl Hlo) as Hlt.
    pose proof (py_le_not_gt v (VInt 1000) Hnum Hhi) as Hgt.
    exists n. split; [exact Hn|]. split; [exact Hbounds|].
    unfold __setWidth, __setHeight. rewrite Hnum. cbn [negb]. run_m.
    rewrite Hlt, Hgt, Hn. split.
    + now apply (size_setter_with_thread "width" c n th
                   CameraDataThread.set_width).
    + now apply (size_setter_with_thread "height" c n th
                   CameraDataThread.set_height).
Qed.

Lemma size_setters_validate_witness :
  set "width" (VInt 99) init = (Ok false, init)
  /\ exists n : Z,
       py_int (VFloat 640.75) = Ok n /\ 100 <= n <= 1000
       /\ set "width" (VFloat 640.75) (snd (set "framerate" (VInt 10) init))
          = (Ok true,
             mk (<["width" := VInt n]>
                   (__features (snd (set "framerate" (VInt 10) init))))
                (__buffer (snd (set "framerate" (VInt 10) init)))
                (Some (CameraDataThread.set_width (VInt n)
                         (producer (snd (set "framerate" (VInt 10)
                                                init)))))).
Proof.
  destruct (size_setters_validate init (VInt 99)) as [Hrej _].
  destruct (size_setters_validate
              (snd (set "framerate" (VInt 10) init)) (VFloat 640.75))
    as [_ Hacc].
  split.
  - apply Hrej. right; left. reflexivity.
  - destruct (Hacc (producer (snd (set "framerate" (VInt 10) init))))
      as (n & Hn & Hb & Hw & _); try reflexivity.
    exists n. auto.
Defined.

End camera_setters_more.

Section camera_edges.
Import Camera.

Lemma py_lt_nan (v : pyval) :
  is_number v = true -> py_lt (VFloat nan) v = Ok false.
Proof. destruct v; try discriminate; reflexivity. Qed.

(** X15: the range tests of the setters let NaN through, since NaN is
    neither below nor above a limit.  [set('framerate', nan)] and
    [set('exposuretime', nan)] return [True] and store NaN, which the
    producer is given as frame time and as exposure time;
    [set('width', nan)] and [set('height', nan)] raise [ValueError] from
    [int(nan)], before they change anything. *)
Theorem nan_passes_range_tests (c : t) (e : pyval) :
  __features c !! "exposuretime" = Some e ->
  is_number e = true ->
  set "framerate" (VFloat nan) c =
    (Ok true,
     mk (<["exposuretime" := e]>
           (<["framerate" := VFloat nan]> (__features c)))
        (__buffer c)
        (Some (CameraDataThread.set_exposure_time e
                 (CameraDataThread.set_frame_time_sec nan (producer c)))))
  /\ set "exposuretime" (VFloat nan) c =
       (Ok true,
        mk (<["exposuretime" := VFloat nan]> (__features c)) (__buffer c)
           (Some (CameraDataThread.set_exposure_time (VFloat nan)
                    (producer c))))
  /\ set "width" (VFloat nan) c = (Raise ValueError, c)
  /\ set "height" (VFloat nan) c = (Raise ValueError, c).
Proof.
  intros He Henum. split; [|split; [|split; reflexivity]].
  - change (set "framerate" (VFloat nan)) with (__setFrameRate (VFloat nan)).
    rewrite (setFrameRate_state c (VFloat nan) e nan false);
      try reflexivity; try assumption.
    now apply py_lt_nan.
  - change (set "exposuretime" (VFloat nan))
      with (__setExposureTime (VFloat nan)).
    now rewrite (setExposureTime_state c (VFloat nan) nan).
Qed.

Lemma nan_passes_range_tests_witness :
  fst (set "framerate" (VFloat nan) init) = Ok true
  /\ get "framerate" (snd (set "framerate" (VFloat nan) init))
     = (Ok (VFloat nan), snd (set "framerate" (VFloat nan) init))
  /\ set "width" (VFloat nan) init = (Raise ValueError, init).
Proof.
  destruct (nan_passes_range_tests init (VInt 1) eq_refl eq_refl)
    as (Hrate & _ & Hwidth & _).
  rewrite Hrate. split; [reflexivity|]. split; [reflexivity | exact Hwidth].
Defined.

(** X16: [set] only knows the names [framerate], [exposuretime], [width],
    [height], [start] and [stop]: for any other name, [isstarted] among
    them, it returns [False] and changes nothing.  [get] only knows
    [framerate], [exposuretime], [width], [height] and [isstarted]: for
    any other name, [start] and [stop] among them, it returns [None]. *)
Theorem unknown_feature_names (c : t) (name : string) (v : pyval) :
  (name <> "framerate" -> name <> "exposuretime" -> name <> "width" ->
   name <> "height" -> name <> "start" -> name <> "stop" ->
   set name v c = (Ok false, c))
  /\ (name <> "framerate" -> name <> "exposuretime" -> name <> "width" ->
      name <> "height" -> name <> "isstarted" ->
      get name c = (Ok VNone, c)).
Proof.
  split.
  - intros H1 H2 H3 H4 H5 H6. unfold set.
    apply String.eqb_neq in H1, H2, H3, H4, H5, H6.
    now rewrite H1, H2, H3, H4, H5, H6.
  - intros H1 H2 H3 H4 H5. unfold get.
    apply String.eqb_neq in H1, H2, H3, H4, H5.
    now rewrite H1, H2, H3, H4, H5.
Qed.

Lemma unknown_feature_names_witness :
  set "isstarted" (VBool true) init = (Ok false, init)
  /\ get "start" init = (Ok VNone, init).
Proof.
  destruct (unknown_feature_names init "isstarted" (VBool true)) as [Hset _].
  destruct (unknown_feature_names init "start" VNone) as [_ Hget].
  split; [apply Hset | apply Hget]; discriminate.
Defined.

End camera_edges.

(** ** Camera: what [set] leaves alone *)

Section camera_invariance.
Import Camera.

Variable P : t -> Prop.
Hypothesis P_thread : forall c th, P c -> P (set_thread th c).

Lemma on_thread_preserves {A} (m : M CameraDataThread.t A) :
  preserves P (on_thread m).
Proof using P_thread.
  intros c Hc. unfold on_thread. destruct (__thread c) as [th|]; [|exact Hc].
  destruct (m th) as [r th']. now apply P_thread.
Qed.

Lemma call_thread_preserves {A B} (arg : M t A)
    (method : A -> M CameraDataThread.t B) :
  preserves P arg -> preserves P (call_thread arg method).
Proof using P_thread.
  intros Harg. unfold call_thread.
  apply preserves_bind; [apply preserves_get_state | intros c0].
  destruct (__thread c0); [|apply preserves_raise].
  apply preserves_bind; [exact Harg | intros v].
  apply on_thread_preserves.
Qed.

Lemma createThread_preserves : preserves P __createThread.
Proof using P_thread.
  intros c Hc. rewrite createThread_run. now apply P_thread.
Qed.

Lemma try_except_preserves {A} (body handler : M t A) :
  preserves P body -> preserves P handler ->
  preserves P (try_except body handler).
Proof.
  intros Hb Hh c Hc. unfold try_except. specialize (Hb c Hc).
  destruct (body c) as [[a|e] c1]; cbn in *; [assumption | now apply Hh].
Qed.

Hypothesis P_assign :
  forall c k v, k ∈ feature_names -> P c ->
                P (set_features (<[k := v]> (__features c)) c).
(** [set] with any name but [start]. *)
Lemma set_preserves_but_start (name : string) (v : pyval) :
  name <> "start" -> preserves P (set name v).
Proof using P_thread P_assign.
  intros Hne. apply String.eqb_neq in Hne.
  assert (Hassign : forall k x, k ∈ feature_names ->
                                preserves P (feature_assign k x)).
  { intros k x Hk c Hc. now apply P_assign. }
  unfold set. rewrite Hne. lazy iota.
  unfold __setFrameRate, __setExposureTime, __setWidth, __setHeight,
    __stop, __adjustExposureTime, py_gt.
  repeat first
    [ apply preserves_ret
    | apply preserves_lift
    | apply preserves_feature
    | apply createThread_preserves
    | apply on_thread_preserves
    | apply call_thread_preserves
    | apply try_except_preserves
    | apply Hassign; unfold feature_names; set_solver
    | apply preserves_modify; intros c; apply P_thread
    | match goal with
      | |- preserves P (if ?b then _ else _) => destruct b
      end
    | apply preserves_bind; [|intros ?] ].
Qed.

Hypothesis P_no_buffer : forall m : M RingBuffer.t unit,
  preserves P (on_buffer m).

(** Every path through [set], but for the [on_buffer] step of [__start],
    keeps a property that the producer and assignments to the seven
    features do not disturb. *)
Lemma set_preserves (name : string) (v : pyval) : preserves P (set name v).
Proof using P_thread P_assign P_no_buffer.
  assert (Hassign : forall k x, k ∈ feature_names ->
                                preserves P (feature_assign k x)).
  { intros k x Hk c Hc. now apply P_assign. }
  unfold set, __setFrameRate, __setExposureTime, __setWidth, __setHeight,
    __start, __stop, __adjustExposureTime, py_gt.
  repeat first
    [ apply preserves_ret
    | apply preserves_lift
    | apply preserves_feature
    | apply preserves_get
    | apply createThread_preserves
    | apply on_thread_preserves
    | apply call_thread_preserves
    | apply P_no_buffer
    | apply try_except_preserves
    | apply Hassign; unfold feature_names; set_solver
    | apply preserves_modify; intros c; apply P_thread
    | match goal with
      | |- preserves P (if ?b then _ else _) => destruct b
      end
    | apply preserves_bind; [|intros ?] ].
Qed.

End camera_invariance.

Section camera_invariance_extras.
Import Camera.

(** X17: [set] never adds or removes a feature.  On a camera whose
    features have the seven names of [Camera()], they still have exactly
    these names after [set] with any name and any value, whatever [set]
    returned or raised. *)
Theorem set_keeps_feature_names (c : t) (name : string) (v : pyval) :
  dom (__features c) = feature_names ->
  dom (__features (snd (set name v c))) = feature_names.
Proof.
  apply (set_preserves (fun c => dom (__features c) = feature_names)).
  - intros c0 th H. exact H.
  - intros c0 k x Hk H. cbn. rewrite dom_insert_L, H.
    apply subseteq_union_1_L. now apply singleton_subseteq_l.
  - intros m c0 H. unfold on_buffer. now destruct (m (__buffer c0)).
Qed.

Lemma set_keeps_feature_names_witness :
  dom (__features init) = feature_names /\
  dom (__features (snd (set "start" VNone init))) = feature_names.
Proof.
  assert (H : dom (__features init) = feature_names).
  { unfold init, feature_names. cbn [__features].
    rewrite !dom_list_to_map_L. set_solver. }
  split; [exact H|].
  exact (set_keeps_feature_names init "start" VNone H).
Defined.

(** X18: only [start] touches the buffer.  [set] with any other name,
    and any value, leaves every slot, both indices and both counters as
    they were, whatever it returned or raised. *)
Theorem set_leaves_buffer (c : t) (name : string) (v : pyval) :
  name <> "start" ->
  __buffer (snd (set name v c)) = __buffer c.
Proof.
  intros Hne.
  apply (set_preserves_but_start (fun c' => __buffer c' = __buffer c));
    [ intros c0 th H; exact H
    | intros c0 k x Hk H; exact H
    | exact Hne
    | reflexivity ].
Qed.

Lemma set_leaves_buffer_witness :
  "stop" <> "start" /\
  __buffer (snd (set "stop" VNone (snd (set "start" VNone init))))
  = __buffer (snd (set "start" VNone init)).
Proof.
  assert (H : "stop" <> "start") by discriminate.
  split; [exact H|].
  exact (set_leaves_buffer (snd (set "start" VNone init)) "stop" VNone H).
Defined.

End camera_invariance_extras.

(** ** Camera: stopping and starting *)

Section camera_lifecycle.
Import Camera.

Lemma stop_without_thread (c : t) :
  __thread c = None ->
  __stop c =
    (Ok false,
     mk (<["isstarted" := VBool false]> (__features c)) (__buffer c) None).
Proof.
  intros Hth. unfold __stop, try_except, feature_assign, on_thread,
    dict_setitem, set_features. run_m. cbn. now rewrite Hth.
Qed.

Lemma stop_with_thread (c : t) (th : CameraDataThread.t) :
  __thread c = Some th ->
  (CameraDataThread.__is_started th = true ->
   CameraDataThread._started th = true) ->
  __stop c =
    (Ok true,
     mk (<["isstarted" := VBool false]> (__features c)) (__buffer c) None).
Proof.
  intros Hth Hcons. unfold __stop, try_except, feature_assign, on_thread,
    dict_setitem, set_features, set_thread. run_m. cbn. rewrite Hth.
  unfold CameraDataThread.stop, CameraDataThread.Thread_join. run_m.
  destruct (CameraDataThread.__is_started th) eqn:His; cbn; [|reflexivity].
  now rewrite (Hcons eq_refl).
Qed.

Lemma never_started_producer (c : t) :
  startable c -> CameraDataThread.never_started (producer c).
Proof.
  unfold startable, producer. destruct (__thread c) as [th|]; cbn; [easy|].
  intros _. split; reflexivity.
Qed.

(** The camera after a successful [__start]. *)
Lemma start_state (c : t) (fr e w h : pyval) (x : float) :
  configured c fr e w h x ->
  startable c ->
  __start c =
    (Ok true,
     mk (<["isstarted" := VBool true]> (__features c))
        (RingBuffer.mk (RingBuffer.__size (__buffer c))
           (RingBuffer.__frames (__buffer c))
           (RingBuffer.__write_index (__buffer c))
           (RingBuffer.__write_index (__buffer c)) 0 0)
        (Some (CameraDataThread.mk x e w h
                 (CameraDataThread.__frame_number (producer c))
                 true true true))).
Proof.
  intros (Hfr & He & Hw & Hh & Hx) Hstartable.
  destruct (never_started_producer c Hstartable) as [His Hst].
  rewrite start_unfold. unfold try_except, start_rest. run_m.
  rewrite createThread_run.
  change (get "framerate") with (feature "framerate").
  change (get "exposuretime") with (feature "exposuretime").
  change (get "width") with (feature "width").
  change (get "height") with (feature "height").
  unfold call_thread, on_thread, on_buffer, feature, dict_getitem,
    set_thread, set_features, set_buffer,
    CameraDataThread.setFrameRate, CameraDataThread.setExposureTime,
    CameraDataThread.setWidth, CameraDataThread.setHeight. run_m.
  cbn [__features __buffer __thread].
  rewrite !lookup_insert_ne by done. rewrite Hfr, Hx.
  cbn [__features __buffer __thread].
  rewrite !lookup_insert_ne by done. rewrite He.
  cbn [__features __buffer __thread].
  rewrite !lookup_insert_ne by done. rewrite Hw.
  cbn [__features __buffer __thread].
  rewrite !lookup_insert_ne by done. rewrite Hh.
  cbn [__features __buffer __thread].
  rewrite sync_run.
  cbn [__features __buffer __thread].
  unfold producer in *. cbn [__thread] in *.
  destruct (default CameraDataThread.init (__thread c))
    as [ft0 e0 w0 h0 n0 i0 s0 a0].
  cbn in His, Hst. subst i0 s0. reflexivity.
Qed.

(** X19: [set('stop')] never raises.  It leaves [isstarted] at [False]
    and the camera without a producer, and does not touch the buffer; it
    returns [True] when there was a producer to stop and [False] when
    there was none, so that a second [set('stop')] returns [False]. *)
Theorem stop_outcome (c : t) :
  producer_consistent c ->
  let c' := mk (<["isstarted" := VBool false]> (__features c))
               (__buffer c) None in
  exists b : bool,
    set "stop" VNone c = (Ok b, c')
    /\ (b = true <-> __thread c <> None)
    /\ get "isstarted" c' = (Ok (VBool false), c')
    /\ set "stop" VNone c' = (Ok false, c').
Proof.
  intros Hcons c'. change (set "stop" VNone) with __stop.
  assert (Hagain : __stop c' = (Ok false, c')).
  { rewrite stop_without_thread by reflexivity. unfold c'. cbn.
    now rewrite insert_insert_eq. }
  assert (Hget : get "isstarted" c' = (Ok (VBool false), c')).
  { change (get "isstarted") with (feature "isstarted").
    unfold feature, dict_getitem. run_m. unfold c'. cbn.
    now rewrite lookup_insert_eq. }
  destruct (__thread c) as [th|] eqn:Hth.
  - exists true. rewrite (stop_with_thread c th Hth (Hcons th Hth)).
    repeat split; try assumption; try discriminate.
  - exists false. rewrite (stop_without_thread c Hth).
    repeat split; try assumption; try discriminate.
    intros H. now destruct H.
Qed.

Lemma stop_outcome_witness :
  producer_consistent (snd (set "start" VNone init)) /\
  set "stop" VNone (snd (set "start" VNone init))
  = (Ok true,
     mk (<["isstarted" := VBool false]>
           (__features (snd (set "start" VNone init))))
        (__buffer (snd (set "start" VNone init))) None).
Proof.
  assert (H : producer_consistent (snd (set "start" VNone init))).
  { intros th Hth _. vm_compute in Hth. now injection Hth as <-. }
  split; [exact H|].
  destruct (stop_outcome _ H) as ([|] & Hstop & Hb & _).
  - exact Hstop.
  - exfalso. destruct Hb as [_ Hb]. discriminate Hb. discriminate.
Defined.

(** X20: on a camera whose producer is absent or was never started,
    [set('start')] returns [True] and sets [isstarted].  The producer then
    runs with the stored frame rate turned into a frame time and with the
    stored exposure time, width and height; the buffer is synchronised,
    so that a [pop] before the first new frame returns [None], whatever
    was unread. *)
Theorem start_outcome (c : t) (fr e w h : pyval) (x : float) :
  configured c fr e w h x ->
  startable c ->
  exists c' : t,
    set "start" VNone c = (Ok true, c')
    /\ get "isstarted" c' = (Ok (VBool true), c')
    /\ __thread c' =
         Some (CameraDataThread.mk x e w h
                 (CameraDataThread.__frame_number (producer c))
                 true true true)
    /\ RingBuffer.pop (__buffer c') = (Ok None, __buffer c')
    /\ RingBuffer.__frames (__buffer c') = RingBuffer.__frames (__buffer c).
Proof.
  intros Hconf Hstartable. change (set "start" VNone) with __start.
  rewrite (start_state c fr e w h x Hconf Hstartable).
  eexists. split; [reflexivity|]. repeat split.
  - change (get "isstarted") with (feature "isstarted").
    unfold feature, dict_getitem. run_m. cbn.
    now rewrite lookup_insert_eq.
  - now apply pop_reachable_together.
Qed.

Lemma start_outcome_witness :
  configured init (VInt 10) (VInt 1) (VInt 640) (VInt 512) (1 / 10)%float /\
  startable init /\
  exists c' : t,
    set "start" VNone init = (Ok true, c')
    /\ get "isstarted" c' = (Ok (VBool true), c')
    /\ __thread c' =
         Some (CameraDataThread.mk (1 / 10)%float (VInt 1) (VInt 640)
                 (VInt 512)
                 (CameraDataThread.__frame_number (producer init))
                 true true true)
    /\ RingBuffer.pop (__buffer c') = (Ok None, __buffer c')
    /\ RingBuffer.__frames (__buffer c')
       = RingBuffer.__frames (__buffer init).
Proof.
  assert (H1 : configured init (VInt 10) (VInt 1) (VInt 640) (VInt 512)
                 (1 / 10)%float) by (repeat split).
  assert (H2 : startable init) by exact I.
  split; [exact H1|]. split; [exact H2|].
  exact (start_outcome init _ _ _ _ _ H1 H2).
Defined.

(** X21: [set('stop')] followed by [set('start')] always gets the
    acquisition going, also after a start that failed: the second call
    returns [True] and a new producer runs with the stored features.  Its
    frame numbers begin again from 1. *)
Theorem stop_then_start_restarts (c : t) (fr e w h : pyval) (x : float) :
  producer_consistent c ->
  configured c fr e w h x ->
  (set "stop" VNone;; set "start" VNone) c =
    (Ok true,
     mk (<["isstarted" := VBool true]> (__features c))
        (RingBuffer.mk (RingBuffer.__size (__buffer c))
           (RingBuffer.__frames (__buffer c))
           (RingBuffer.__write_index (__buffer c))
           (RingBuffer.__write_index (__buffer c)) 0 0)
        (Some (CameraDataThread.mk x e w h (PyInt 1) true true true))).
Proof.
  intros Hcons (Hfr & He & Hw & Hh & Hx).
  change (set "stop" VNone) with __stop.
  change (set "start" VNone) with __start. run_m.
  set (c1 := mk (<["isstarted" := VBool false]> (__features c))
                (__buffer c) None).
  assert (Hstop : exists b, __stop c = (Ok b, c1)).
  { destruct (__thread c) as [th|] eqn:Hth.
    - exists true. exact (stop_with_thread c th Hth (Hcons th Hth)).
    - exists false. exact (stop_without_thread c Hth). }
  destruct Hstop as [b ->].
  rewrite (start_state c1 fr e w h x).
  - unfold c1. cbn. now rewrite insert_insert_eq.
  - unfold configured, c1. cbn.
    rewrite !lookup_insert_ne by done. auto.
  - exact I.
Qed.

Lemma stop_then_start_restarts_witness :
  producer_consistent (snd ((set "start" VNone;; set "start" VNone) init)) /\
  fst ((set "start" VNone;; set "start" VNone) init) = Ok false /\
  fst ((set "stop" VNone;; set "start" VNone)
         (snd ((set "start" VNone;; set "start" VNone) init)))
  = Ok true.
Proof.
  assert (H : producer_consistent
                (snd ((set "start" VNone;; set "start" VNone) init))).
  { intros th Hth _. vm_compute in Hth. now injection Hth as <-. }
  split; [exact H|]. split; [vm_compute; reflexivity|].
  rewrite (stop_then_start_restarts _ (VInt 10) (VInt 1) (VInt 640)
             (VInt 512) (1 / 10)%float H).
  - reflexivity.
  - vm_compute. repeat split.
Defined.

End camera_lifecycle.

(** ** Camera: getting a frame *)

Section camera_get_frame.
Import Camera.

Lemma arrive_reachable (sz : Z) (fs : list Frame) (b : RingBuffer.t) :
  0 < sz -> RingBuffer.reachable sz b -> RingBuffer.reachable sz (arrive fs b).
Proof.
  intros Hpos. unfold arrive. revert b.
  induction fs as [|f fs IH]; intros b Hb; cbn; [exact Hb|].
  run_m.
  pose proof (invariant_well_formed sz b (reachable_invariant sz b Hb) Hpos)
    as Hwf.
  rewrite (push_well_formed f b Hwf). apply IH.
  eapply RingBuffer.reachable_step; [exact Hb|].
  apply (RingBuffer.step_push _ _ f), push_well_formed, Hwf.
Qed.

Lemma get_frame_loop_unfold (timeout : pyval) (t1 : float)
    (time_spent : pyval) (turns : list (list Frame * float)) :
  get_frame_loop timeout t1 time_spent turns =
    (below ← lift (py_lt time_spent timeout);
     if below : bool then
       match turns with
       | [] => ret None
       | (arrivals, t2) :: rest =>
           modify (arrive arrivals);;
           frame ← RingBuffer.pop;
           match frame with
           | Some f => ret (Some (Some f))
           | None =>
               get_frame_loop timeout t1 (VFloat (t2 - t1)%float) rest
           end
       end
     else ret (Some None)).
Proof. destruct turns; reflexivity. Qed.

(** X22: with a timeout that is not above zero, [get_frame] does not
    poll: it returns [None] at once, also when frames are waiting in the
    buffer, which it leaves alone unless it was asked to synchronise. *)
Theorem get_frame_without_time (c : t) (timeout sync : pyval) (t1 : float)
    (turns : list (list Frame * float)) :
  py_lt (VInt 0) timeout = Ok false ->
  get_frame timeout sync t1 turns c =
    (Ok (Some None),
     if py_eq_True sync
     then set_buffer (snd (RingBuffer.sync (__buffer c))) c
     else c).
Proof.
  intros Hlt. unfold get_frame, on_buffer. run_m.
  destruct (py_eq_True sync); cbn;
    rewrite get_frame_loop_unfold; run_m; rewrite Hlt; cbn;
    [reflexivity | now destruct c].
Qed.

Lemma get_frame_without_time_witness :
  py_lt (VInt 0) (VInt 0) = Ok false /\
  get_frame (VInt 0) (VBool false) 0%float [([], 1%float)]
    (set_buffer (arrive [sample_frame 1] (__buffer init)) init)
  = (Ok (Some None),
     set_buffer (arrive [sample_frame 1] (__buffer init)) init).
Proof.
  assert (H : py_lt (VInt 0) (VInt 0) = Ok false) by reflexivity.
  split; [exact H|].
  exact (get_frame_without_time
           (set_buffer (arrive [sample_frame 1] (__buffer init)) init)
           (VInt 0) (VBool false) 0%float [([], 1%float)] H).
Defined.

(** X23: with a timeout above zero and no synchronisation asked for,
    [get_frame] returns at its first poll the frame at the read index,
    if the indices differ once the producer's pushes before that poll are
    in. *)
Theorem get_frame_returns_waiting_frame (sz : Z) (c : t)
    (timeout : pyval) (t1 t2 : float) (arrivals : list Frame)
    (rest : list (list Frame * float)) :
  0 < sz ->
  RingBuffer.reachable sz (__buffer c) ->
  py_lt (VInt 0) timeout = Ok true ->
  RingBuffer.__read_index (arrive arrivals (__buffer c))
  <> RingBuffer.__write_index (arrive arrivals (__buffer c)) ->
  exists f : Frame,
    RingBuffer.__frames (arrive arrivals (__buffer c))
      !! Z.to_nat (RingBuffer.__read_index (arrive arrivals (__buffer c)))
    = Some (Some f)
    /\ fst (get_frame timeout (VBool false) t1 ((arrivals, t2) :: rest) c)
       = Ok (Some (Some f)).
Proof.
  intros Hpos Hreach Hlt Hne.
  pose proof (arrive_reachable sz arrivals _ Hpos Hreach) as Hreach'.
  destruct (pop_reachable_apart sz _ Hreach' Hne) as (f & Hf & Hpop).
  exists f. split; [exact Hf|].
  unfold get_frame, on_buffer. cbn [py_eq_True]. run_m.
  rewrite get_frame_loop_unfold. run_m.
  rewrite Hlt. cbn beta iota. now rewrite Hpop.
Qed.

Lemma get_frame_returns_waiting_frame_witness :
  exists f : Frame,
    RingBuffer.__frames (arrive [sample_frame 5] (__buffer init))
      !! Z.to_nat (RingBuffer.__read_index
                     (arrive [sample_frame 5] (__buffer init)))
    = Some (Some f)
    /\ fst (get_frame (VFloat 5) (VBool false) 0%float
              [([sample_frame 5], 1%float)] init)
       = Ok (Some (Some f)).
Proof.
  apply (get_frame_returns_waiting_frame 100 init (VFloat 5) 0%float
           1%float [sample_frame 5] []).
  - lia.
  - apply RingBuffer.reachable_init.
  - reflexivity.
  - vm_compute. discriminate.
Defined.

(** The loop on a buffer whose indices coincide, while nothing arrives. *)
Lemma get_frame_loop_quiet (timeout : pyval) (t1 : float)
    (turns : list (list Frame * float)) (b : RingBuffer.t) :
  is_number timeout = true ->
  RingBuffer.__read_index b = RingBuffer.__write_index b ->
  Forall (fun turn => turn.1 = []) turns ->
  forall time_spent : pyval,
    is_number time_spent = true ->
    py_lt time_spent timeout = Ok false
    \/ Exists (fun turn => py_lt (VFloat (turn.2 - t1)) timeout = Ok false)
              turns ->
    get_frame_loop timeout t1 time_spent turns b = (Ok (Some None), b).
Proof.
  intros Hnum Hidx Hquiet.
  induction Hquiet as [|[arrivals t2] turns Harr _ IH];
    intros time_spent Hts Hend; rewrite get_frame_loop_unfold; run_m;
    destruct (py_lt_numbers time_spent timeout Hts Hnum) as [below Hbelow];
    rewrite Hbelow; destruct below; try reflexivity.
  - destruct Hend as [Hend|Hend]; [congruence | inversion Hend].
  - cbn in Harr. subst arrivals. unfold arrive. cbn.
    rewrite pop_reachable_together by assumption.
    apply IH; [reflexivity|].
    destruct Hend as [Hend|Hend]; [congruence|].
    apply Exists_cons in Hend as [Hend|Hend]; [now left | now right].
Qed.

(** X24: when nothing arrives while [get_frame] polls, and the buffer was
    read up to the write index or a synchronisation is asked for,
    [get_frame] returns [None] once a reading of the clock is no longer
    below the timeout.  With [sync] it does so whatever was unread in the
    buffer: frames made before the call are never returned. *)
Theorem get_frame_times_out (c : t) (timeout sync : pyval) (t1 : float)
    (turns : list (list Frame * float)) :
  is_number timeout = true ->
  py_eq_True sync = true
  \/ RingBuffer.__read_index (__buffer c)
     = RingBuffer.__write_index (__buffer c) ->
  Forall (fun turn => turn.1 = []) turns ->
  Exists (fun turn => py_lt (VFloat (turn.2 - t1)) timeout = Ok false)
         turns ->
  fst (get_frame timeout sync t1 turns c) = Ok (Some None).
Proof.
  intros Hnum Hempty Hquiet Hend. unfold get_frame, on_buffer. run_m.
  destruct (py_eq_True sync) eqn:Hsync; cbn.
  - rewrite sync_run. cbn.
    rewrite (get_frame_loop_quiet timeout t1 turns); auto.
  - destruct Hempty as [Hempty|Hempty]; [discriminate|].
    rewrite (get_frame_loop_quiet timeout t1 turns); auto.
Qed.

Lemma get_frame_times_out_witness :
  fst (get_frame (VFloat 0.5) (VBool true) 10%float
         [([], 10.25%float); ([], 10.5%float)]
         (set_buffer (arrive [sample_frame 1] (__buffer init)) init))
  = Ok (Some None).
Proof.
  apply get_frame_times_out.
  - reflexivity.
  - left. reflexivity.
  - repeat constructor.
  - apply Exists_cons_tl, Exists_cons_hd. reflexivity.
Defined.

(** X25: [get_frame] waits for the next frame.  On a buffer with at
    least two slots that was read up to the write index, after any number
    of polls with nothing arriving and the clock below the timeout, the
    frame the producer pushes next is the one [get_frame] returns. *)
Theorem get_frame_returns_next_frame (sz : Z) (c : t) (timeout : pyval)
    (t1 t2 : float) (quiet rest : list (list Frame * float)) (f : Frame) :
  2 <= sz ->
  RingBuffer.reachable sz (__buffer c) ->
  RingBuffer.__read_index (__buffer c)
  = RingBuffer.__write_index (__buffer c) ->
  py_lt (VInt 0) timeout = Ok true ->
  Forall (fun turn => turn.1 = []
                      /\ py_lt (VFloat (turn.2 - t1)) timeout = Ok true)
         quiet ->
  fst (get_frame timeout (VBool false) t1
         (quiet ++ ([f], t2) :: rest) c)
  = Ok (Some (Some f)).
Proof.
  intros Hsz Hreach Hidx Hlt Hquiet. unfold get_frame, on_buffer.
  cbn [py_eq_True]. run_m.
  assert (Hloop : forall time_spent,
            py_lt time_spent timeout = Ok true ->
            fst (get_frame_loop timeout t1 time_spent
                   (quiet ++ ([f], t2) :: rest) (__buffer c))
            = Ok (Some (Some f))).
  { induction Hquiet as [|[arrivals t] quiet [Harr Hbelow] _ IH];
      intros time_spent Hts; cbn [app]; rewrite get_frame_loop_unfold;
      run_m; rewrite Hts; cbn.
    - pose proof (invariant_well_formed sz _
                    (reachable_invariant sz _ Hreach) ltac:(lia)) as Hwf.
      unfold arrive. cbn. run_m. rewrite (push_well_formed f _ Hwf). cbn.
      set (b2 := RingBuffer.mk _ _ _ _ _ _).
      assert (Hb2 : RingBuffer.reachable sz b2).
      { eapply RingBuffer.reachable_step; [exact Hreach|].
        apply (RingBuffer.step_push _ _ f), push_well_formed, Hwf. }
      destruct (reachable_invariant sz _ Hreach) as (Hsize & Hlen & Hwi & _).
      assert (Hne : RingBuffer.__read_index b2
                    <> RingBuffer.__write_index b2).
      { unfold b2; cbn. rewrite Hsize, succ_mod by lia.
        destruct (decide _); lia. }
      destruct (pop_reachable_apart sz b2 Hb2 Hne) as (g & Hg & Hpop).
      rewrite Hpop. cbn. unfold b2 in Hg. cbn in Hg.
      rewrite Hidx, list_lookup_insert_eq in Hg by lia. congruence.
    - cbn in Harr, Hbelow. subst arrivals. unfold arrive. cbn.
      rewrite pop_reachable_together by assumption.
      now apply IH. }
  specialize (Hloop (VInt 0) Hlt).
  now destruct (get_frame_loop _ _ _ _ _) as [r b].
Qed.

Lemma get_frame_returns_next_frame_witness :
  fst (get_frame (VFloat 5) (VBool false) 0%float
         ([([], 1%float); ([], 2%float)] ++ ([sample_frame 3], 3%float) :: [])
         init)
  = Ok (Some (Some (sample_frame 3))).
Proof.
  apply (get_frame_returns_next_frame 100).
  - lia.
  - apply RingBuffer.reachable_init.
  - reflexivity.
  - reflexivity.
  - repeat constructor.
Defined.

End camera_get_frame.

(** ** CameraLibrary *)

Section camera_library.
Import CameraLibrary.

(** X26: the keywords of [CameraLibrary] need [create_camera] first.
    While the library has no camera, every other keyword raises
    [AttributeError] and changes nothing.  [create_camera] gives a new
    camera whatever the library held: after it the camera is not started,
    has the frame rate 10 of [Camera()], and can be started. *)
Theorem keywords_need_a_camera (l : t) (value timeout : pyval) (t1 : float)
    (turns : list (list Frame * float)) :
  (camera l = None ->
   camera_start l = (Raise AttributeError, l)
   /\ camera_stop l = (Raise AttributeError, l)
   /\ is_camera_started l = (Raise AttributeError, l)
   /\ get_camera_frame timeout t1 turns l = (Raise AttributeError, l)
   /\ get_camera_framerate l = (Raise AttributeError, l)
   /\ get_camera_exposuretime l = (Raise AttributeError, l)
   /\ get_camera_width l = (Raise AttributeError, l)
   /\ get_camera_height l = (Raise AttributeError, l)
   /\ set_camera_framerate value l = (Raise AttributeError, l)
   /\ set_camera_exposuretime value l = (Raise AttributeError, l)
   /\ set_camera_width value l = (Raise AttributeError, l)
   /\ set_camera_height value l = (Raise AttributeError, l))
  /\ fst ((create_camera;; is_camera_started) l) = Ok (VBool false)
  /\ fst ((create_camera;; get_camera_framerate) l) = Ok (VInt 10)
  /\ fst ((create_camera;; camera_start;; is_camera_started) l)
     = Ok (VBool true).
Proof.
  split; [|repeat split].
  intros Hcam.
  unfold camera_start, camera_stop, is_camera_started, get_camera_frame,
    get_camera_framerate, get_camera_exposuretime, get_camera_width,
    get_camera_height, set_camera_framerate, set_camera_exposuretime,
    set_camera_width, set_camera_height, on_camera.
  rewrite Hcam. repeat split.
Qed.

Lemma keywords_need_a_camera_witness :
  camera init = None /\
  camera_start init = (Raise AttributeError, init)
  /\ set_camera_width (VInt 640) init = (Raise AttributeError, init).
Proof.
  assert (H : camera init = None) by reflexivity.
  split; [exact H|].
  destruct (keywords_need_a_camera init (VInt 640) (VFloat 5) 0%float [])
    as [Hnone _].
  destruct (Hnone H)
    as (Hs & _ & _ & _ & _ & _ & _ & _ & _ & _ & Hw & _).
  split; assumption.
Defined.

End camera_library.
